(** * Token service: normalisation of market data and attached commentary

    A shallow embedding of [TokenService] (token.service.ts) and of its
    controller.  The service is written against untyped payloads
    ([token: any]), so the embedding starts with the fragment of JavaScript
    the service relies on: JSON data, [undefined], truthiness, [||], [?.],
    property reads, the two method calls [toUpperCase] and [slice], template
    interpolation, and [try]/[catch] around awaited calls. *)

Set Warnings "-register-all,-inexact-float".
From Stdlib Require Import ZArith Lia Ascii Uint63.
From Stdlib Require Import Floats.PrimFloat Floats.SpecFloat Floats.FloatOps.
From stdpp Require Import base option strings pretty list gmap.

Local Open Scope string_scope.
Local Open Scope list_scope.

(** ** JavaScript values *)

Module JS.

(** Data as the HTTP client and the completion client hand it to the service:
    the result of parsing a JSON body.  Numbers are binary64 floats.  A
    character of a string stands for one code unit.  The members of an object
    are kept in the order of the parsed text. *)
Inductive json : Type :=
| JNull
| JBool (b : bool)
| JNum (n : float)
| JStr (s : string)
| JArr (elems : list json)
| JObj (members : list (string * json)).

(** Built-in function objects that a property read of the service can reach
    through a prototype: [String.prototype.small], when [token.image] is a
    string and [token.image?.small] is read. *)
Inductive native : Type :=
| StringSmall.

(** What an expression of the service can evaluate to: [undefined], a
    built-in function, upstream data (or a literal of the same kinds), or the
    object built by the literal [{ thumb: ..., small: ..., large: ... }]. *)
Inductive value : Type :=
| VUndef
| VFun (f : native)
| VJson (j : json)
| VImage (thumb small large : value).

Definition VNull : value := VJson JNull.
Definition VNum (n : float) : value := VJson (JNum n).
Definition VStr (s : string) : value := VJson (JStr s).
Definition VArr (l : list json) : value := VJson (JArr l).

(** Exceptions: a [TypeError] raised by the runtime, or the rejection of an
    awaited outbound call. *)
Inductive exn : Type :=
| TypeError
| Rejected (reason : string).

(** The completion of an evaluation: a value or a thrown exception. *)
Inductive completion (A : Type) : Type :=
| Normal (a : A)
| Throw (e : exn).
Arguments Normal {A} a.
Arguments Throw {A} e.

#[global] Instance completion_ret : MRet completion := λ A, @Normal A.
#[global] Instance completion_bind : MBind completion := λ A B f m,
  match m with
  | Normal a => f a
  | Throw e => Throw e
  end.

(** *** Truthiness, [||] and nullish values *)

(** ToBoolean on numbers: [+0], [-0] and [NaN] are falsy. *)
Definition truthy_number (n : float) : bool :=
  negb (PrimFloat.eqb n 0%float) && PrimFloat.eqb n n.

Definition nonempty (s : string) : bool :=
  match s with
  | EmptyString => false
  | String _ _ => true
  end.

Definition truthy (v : value) : bool :=
  match v with
  | VUndef => false
  | VFun _ => true
  | VImage _ _ _ => true
  | VJson JNull => false
  | VJson (JBool b) => b
  | VJson (JNum n) => truthy_number n
  | VJson (JStr s) => nonempty s
  | VJson (JArr _) => true
  | VJson (JObj _) => true
  end.

(** [a || b], for a right operand that is a literal. *)
Definition js_or (a b : value) : value :=
  if truthy a then a else b.

(** [null] and [undefined]. *)
Definition nullish (v : value) : bool :=
  match v with
  | VUndef => true
  | VJson JNull => true
  | _ => false
  end.

(** *** Property reads *)

(** The property names that the service reads. *)
Inductive prop : Type :=
| P_id | P_name | P_symbol | P_image | P_thumb | P_small | P_large
| P_market_cap_rank | P_market_data | P_current_price | P_usd | P_market_cap
| P_total_volume | P_high_24h | P_low_24h | P_price_change_24h
| P_price_change_percentage_24h | P_circulating_supply | P_total_supply
| P_max_supply | P_ath | P_ath_change_percentage | P_ath_date | P_atl
| P_atl_change_percentage | P_atl_date | P_last_updated | P_sparkline_7d
| P_price | P_chart_data | P_choices | P_0 | P_message | P_content.

#[global] Instance prop_eq_dec : EqDecision prop.
Proof. solve_decision. Defined.

Definition prop_name (p : prop) : string :=
  match p with
  | P_id => "id" | P_name => "name" | P_symbol => "symbol"
  | P_image => "image" | P_thumb => "thumb" | P_small => "small"
  | P_large => "large" | P_market_cap_rank => "market_cap_rank"
  | P_market_data => "market_data" | P_current_price => "current_price"
  | P_usd => "usd" | P_market_cap => "market_cap"
  | P_total_volume => "total_volume" | P_high_24h => "high_24h"
  | P_low_24h => "low_24h" | P_price_change_24h => "price_change_24h"
  | P_price_change_percentage_24h => "price_change_percentage_24h"
  | P_circulating_supply => "circulating_supply"
  | P_total_supply => "total_supply" | P_max_supply => "max_supply"
  | P_ath => "ath" | P_ath_change_percentage => "ath_change_percentage"
  | P_ath_date => "ath_date" | P_atl => "atl"
  | P_atl_change_percentage => "atl_change_percentage"
  | P_atl_date => "atl_date" | P_last_updated => "last_updated"
  | P_sparkline_7d => "sparkline_7d" | P_price => "price"
  | P_chart_data => "chart_data" | P_choices => "choices" | P_0 => "0"
  | P_message => "message" | P_content => "content"
  end.

(** The member of a parsed object under a key. *)
Fixpoint assoc (k : string) (members : list (string * json)) : option json :=
  match members with
  | [] => None
  | (k', j) :: rest => if String.eqb k k' then Some j else assoc k rest
  end.

Definition of_member (o : option json) : value :=
  match o with
  | Some j => VJson j
  | None => VUndef
  end.

(** [v.p] for a [v] that is neither [null] nor [undefined].  Own properties
    first; of the names in [prop] the prototypes supply only [small] (on
    strings) and [name] (on functions); index [0] is an own property of
    non-empty arrays and strings. *)
Definition member (v : value) (p : prop) : value :=
  match v with
  | VJson (JObj members) => of_member (assoc (prop_name p) members)
  | VJson (JArr elems) =>
      match p with
      | P_0 => of_member (head elems)
      | _ => VUndef
      end
  | VJson (JStr s) =>
      match p with
      | P_0 =>
          match s with
          | String c _ => VStr (String c EmptyString)
          | EmptyString => VUndef
          end
      | P_small => VFun StringSmall
      | _ => VUndef
      end
  | VImage thumb small large =>
      match p with
      | P_thumb => thumb
      | P_small => small
      | P_large => large
      | _ => VUndef
      end
  | VFun StringSmall =>
      match p with
      | P_name => VStr "small"
      | _ => VUndef
      end
  | _ => VUndef
  end.

(** [v.p]: a [TypeError] when [v] is [null] or [undefined]. *)
Definition get (v : value) (p : prop) : completion value :=
  if nullish v then Throw TypeError else Normal (member v p).

(** [v?.p]. *)
Definition opt (v : value) (p : prop) : value :=
  if nullish v then VUndef else member v p.

(** *** The method calls of the service *)

(** The start index of [slice(start)] on a sequence of length [len]. *)
Definition slice_start (start : Z) (len : nat) : nat :=
  if (start <? 0)%Z
  then Z.to_nat (Z.max (Z.of_nat len + start) 0)
  else Nat.min (Z.to_nat start) len.

Definition list_slice {A : Type} (start : Z) (l : list A) : list A :=
  drop (slice_start start (length l)) l.

Fixpoint string_drop (n : nat) (s : string) : string :=
  match n, s with
  | O, _ => s
  | S n', String _ s' => string_drop n' s'
  | S _, EmptyString => EmptyString
  end.

Definition string_slice (start : Z) (s : string) : string :=
  string_drop (slice_start start (String.length s)) s.

(** [v.slice(start)] for a [v] that is neither [null] nor [undefined]:
    arrays and strings have the method; on anything else [v.slice] is not a
    function (a parsed object holds no function). *)
Definition call_slice (v : value) (start : Z) : completion value :=
  match v with
  | VJson (JArr elems) => Normal (VArr (list_slice start elems))
  | VJson (JStr s) => Normal (VStr (string_slice start s))
  | _ => Throw TypeError
  end.

(** The length of an array or of a string. *)
Definition js_length (v : value) : option nat :=
  match v with
  | VJson (JArr elems) => Some (length elems)
  | VJson (JStr s) => Some (String.length s)
  | _ => None
  end.

(** Built-ins of the runtime that the embedding does not define:
    [String.prototype.toUpperCase], the conversion of a number to a string,
    and [JSON.stringify]. *)
Class Runtime : Type := {
  toUpperCase : string → string;
  NumberToString : float → string;
  JSON_stringify : value → value;
}.

Section WithRuntime.
Context `{Runtime}.

(** [v.toUpperCase()] for a [v] that is neither [null] nor [undefined]:
    only strings have the method. *)
Definition call_toUpperCase (v : value) : completion value :=
  match v with
  | VJson (JStr s) => Normal (VStr (toUpperCase s))
  | _ => Throw TypeError
  end.

(** ToString on parsed data.  An array is joined with commas, [null]
    elements giving the empty string.  An object prints as
    [[object Object]], unless it has a member [toString]: that member is
    no function, [Object.prototype.valueOf] returns the object itself,
    and the conversion ends in a [TypeError]. *)
Fixpoint json_to_string (j : json) : completion string :=
  match j with
  | JNull => Normal "null"
  | JBool true => Normal "true"
  | JBool false => Normal "false"
  | JNum n => Normal (NumberToString n)
  | JStr s => Normal s
  | JArr elems =>
      let element (e : json) : completion string :=
        match e with
        | JNull => Normal ""
        | _ => json_to_string e
        end in
      (fix join (l : list json) : completion string :=
         match l with
         | [] => Normal ""
         | [e] => element e
         | e :: rest =>
             s ← element e; r ← join rest; Normal (s +:+ "," +:+ r)
         end) elems
  | JObj members =>
      match assoc "toString" members with
      | Some _ => Throw TypeError
      | None => Normal "[object Object]"
      end
  end.

(** ToString, as a template literal applies it to an interpolated value. *)
Definition to_string (v : value) : completion string :=
  match v with
  | VUndef => Normal "undefined"
  | VFun StringSmall => Normal "function small() { [native code] }"
  | VImage _ _ _ => Normal "[object Object]"
  | VJson j => json_to_string j
  end.

End WithRuntime.

End JS.

(** ** The service *)

Module TokenService.
Import JS.

(** A normalised token, as an object literal of the service builds it: a
    finite map from property names to values.  [TokenSummary] and
    [TokenDetail] are the two shapes of it. *)
Abbreviation record := (gmap string value).

(** *** Object literals and chains of property reads *)

(** [{ k1: e1, k2: e2, ... }]: the initialisers are evaluated in order, and
    the first one that throws ends the evaluation. *)
Fixpoint object_fields (inits : list (string * completion value))
    (acc : record) : completion record :=
  match inits with
  | [] => Normal acc
  | (k, e) :: rest => v ← e; object_fields rest (<[k := v]> acc)
  end.

Definition object_literal (inits : list (string * completion value))
  : completion record :=
  object_fields inits ∅.

(** [e?.p], [e?.toUpperCase()], [e?.slice(start)] and [e || d] after an
    expression [e] that may throw. *)
Definition then_opt (e : completion value) (p : prop) : completion value :=
  v ← e; Normal (opt v p).

Definition then_opt_toUpperCase `{Runtime} (e : completion value)
  : completion value :=
  v ← e; if nullish v then Normal VUndef else call_toUpperCase v.

Definition then_opt_slice (e : completion value) (start : Z)
  : completion value :=
  v ← e; if nullish v then Normal VUndef else call_slice v start.

Definition then_or (e : completion value) (d : value) : completion value :=
  v ← e; Normal (js_or v d).

Definition then_get (e : completion value) (p : prop) : completion value :=
  v ← e; get v p.

Notation "e ?. p" := (then_opt e p) (at level 19, left associativity).
Notation "e !. p" := (then_get e p) (at level 19, left associativity).
Notation "e ||| d" := (then_or e d) (at level 50, left associativity).

(** *** Templates *)

(** A template literal: its text and its substitutions, in order.
    [Interp p] is [${token.p}] and [InterpJson p] is
    [${JSON.stringify(token.p)}]. *)
Inductive piece : Type :=
| Lit (text : string)
| Interp (p : prop)
| InterpJson (p : prop).

Abbreviation template := (list piece).

(** *** Normalisation *)

Section WithRuntime.
Context `{Runtime}.

(** Format AI Agent Token Data (Market List) *)
Definition formatAiAgentToken (token : value) : completion record :=
  object_literal
    [ ("id", get token P_id);
      ("name", get token P_name);
      ("symbol", then_opt_toUpperCase (get token P_symbol) ||| VStr "N/A");
      ("image", get token P_image ||| VStr "");
      ("current_price", get token P_current_price ||| VNum 0);
      ("market_cap", get token P_market_cap ||| VNum 0);
      ("market_cap_rank", get token P_market_cap_rank ||| VNull);
      ("total_volume", get token P_total_volume ||| VNum 0);
      ("high_24h", get token P_high_24h ||| VNum 0);
      ("low_24h", get token P_low_24h ||| VNum 0);
      ("price_change_24h", get token P_price_change_24h ||| VNum 0);
      ("price_change_percentage_24h",
        get token P_price_change_percentage_24h ||| VNum 0);
      ("circulating_supply", get token P_circulating_supply ||| VNum 0);
      ("total_supply", get token P_total_supply ||| VNum 0);
      ("max_supply", get token P_max_supply ||| VNull);
      ("ath", get token P_ath ||| VNum 0);
      ("ath_change_percentage", get token P_ath_change_percentage ||| VNum 0);
      ("atl", get token P_atl ||| VNum 0);
      ("atl_change_percentage", get token P_atl_change_percentage ||| VNum 0);
      ("last_updated", get token P_last_updated ||| VStr "N/A") ].

(** The inner literal [{ thumb: ..., small: ..., large: ... }]. *)
Definition image_literal (token : value) : completion value :=
  thumb ← get token P_image ?. P_thumb ||| VStr "";
  small ← get token P_image ?. P_small ||| VStr "";
  large ← get token P_image ?. P_large ||| VStr "";
  Normal (VImage thumb small large).

(** Format Single Token Details *)
Definition formatTokenDetails (token : value) : completion record :=
  object_literal
    [ ("id", get token P_id);
      ("name", get token P_name);
      ("symbol", then_opt_toUpperCase (get token P_symbol) ||| VStr "N/A");
      ("image", image_literal token);
      ("market_cap_rank", get token P_market_cap_rank ||| VNull);
      ("current_price",
        get token P_market_data ?. P_current_price ?. P_usd ||| VNum 0);
      ("market_cap",
        get token P_market_data ?. P_market_cap ?. P_usd ||| VNum 0);
      ("total_volume",
        get token P_market_data ?. P_total_volume ?. P_usd ||| VNum 0);
      ("price_change_24h",
        get token P_market_data ?. P_price_change_24h ||| VNum 0);
      ("price_change_percentage_24h",
        get token P_market_data ?. P_price_change_percentage_24h ||| VNum 0);
      ("circulating_supply",
        get token P_market_data ?. P_circulating_supply ||| VNum 0);
      ("total_supply", get token P_market_data ?. P_total_supply ||| VNum 0);
      ("max_supply", get token P_market_data ?. P_max_supply ||| VNull);
      ("ath", get token P_market_data ?. P_ath ?. P_usd ||| VNum 0);
      ("ath_change_percentage",
        get token P_market_data ?. P_ath_change_percentage ||| VNum 0);
      ("ath_date", get token P_market_data ?. P_ath_date ||| VStr "N/A");
      ("atl", get token P_market_data ?. P_atl ?. P_usd ||| VNum 0);
      ("atl_change_percentage",
        get token P_market_data ?. P_atl_change_percentage ||| VNum 0);
      ("atl_date", get token P_market_data ?. P_atl_date ||| VStr "N/A");
      ("last_updated", get token P_last_updated ||| VStr "N/A");
      ("chart_data",
        then_opt_slice
          (get token P_market_data ?. P_sparkline_7d ?. P_price) (-24)
        ||| VArr []) ].

(** *** Commentary *)

(** [token.p] on a normalised token. *)
Definition rget (token : record) (p : prop) : value :=
  default VUndef (token !! prop_name p).

Definition render_piece (token : record) (x : piece) : completion string :=
  match x with
  | Lit text => Normal text
  | Interp p => to_string (rget token p)
  | InterpJson p => to_string (JSON_stringify (rget token p))
  end.

Fixpoint render (token : record) (t : template) : completion string :=
  match t with
  | [] => Normal ""
  | x :: rest =>
      s ← render_piece token x; r ← render token rest; Normal (s +:+ r)
  end.

Definition developer_content : string :=
  "You are a professional cryptocurrency analyst. Provide direct, data-driven analysis and a clear investment recommendation based on technical and market indicators. Be concise and avoid generic introductions.".

(** The text of the user message; text outside ASCII is written in UTF-8. *)
Definition user_content : template :=
  [ Lit "
      Analyze the AI-powered token **";
    Interp P_name;
    Lit " (";
    Interp P_symbol;
    Lit ")** and provide a **concise investment recommendation**.
      
      📊 **Market Overview**:
      - **Current Price**: $";
    Interp P_current_price;
    Lit "
      - **Market Cap**: $";
    Interp P_market_cap;
    Lit "
      - **Market Cap Rank**: #";
    Interp P_market_cap_rank;
    Lit "
      - **Total Volume**: $";
    Interp P_total_volume;
    Lit "
      - **24h High/Low**: $";
    Interp P_high_24h;
    Lit " / $";
    Interp P_low_24h;
    Lit "
      - **24h Price Change**: $";
    Interp P_price_change_24h;
    Lit " (";
    Interp P_price_change_percentage_24h;
    Lit "%)
      - **ATH / ATL**: $";
    Interp P_ath;
    Lit " (";
    Interp P_ath_change_percentage;
    Lit "%) / $";
    Interp P_atl;
    Lit " (";
    Interp P_atl_change_percentage;
    Lit "%)
      - **Circulating Supply**: ";
    Interp P_circulating_supply;
    Lit "
      - **Total Supply**: ";
    Interp P_total_supply;
    Lit "
      - **24h Price Trend**: ";
    InterpJson P_chart_data;
    Lit "
      
      ### **💡 Investment Recommendation**
      1. **Short-Term Outlook (Next 7 Days)**: 🚀 **Bullish** or 📉 **Bearish**? Why?
      2. **Support & Resistance Levels**: Where are the key buy & sell zones?
      3. **Best Buy Zone**: What price range would be ideal for entry?
      4. **Best Sell Zone**: Where should an investor take profit?
      5. **Risk Factor**: What risks should be considered?
      6. **Final Verdict**: **Buy, Hold, or Avoid?**
      
      Provide specific numbers and avoid speculation.
                  " ].

Definition chat_request (content : string) : json :=
  JObj
    [ ("model", JStr "gpt-4o");
      ("messages",
        JArr
          [ JObj [ ("role", JStr "developer");
                   ("content", JStr developer_content) ];
            JObj [ ("role", JStr "user"); ("content", JStr content) ] ]);
      ("temperature", JNum 0.8);
      ("max_tokens", JNum 1000) ].

End WithRuntime.

(** *** The outside world *)

(** What a request leaves behind, in order: the outbound calls and the lines
    written with [console.error]. *)
Inductive event : Type :=
| AxiosGet (url : string) (params : json)
| OpenAICreate (request : json)
| ConsoleError (message : string) (error : exn).

(** The two outbound clients and the environment of the process.
    [axios_get url params] stands for [axios.get(url, { params })] and gives
    the [data] of the response; [openai_create request] stands for
    [openai.chat.completions.create(request)].  Both may reject, and both may
    answer differently from one call to the next ([world]). *)
Class Upstream : Type := {
  world : Type;
  axios_get : string → json → world → completion json * world;
  openai_create : json → world → completion json * world;
  GECKO_API_URL : option string;
}.

Section WithUpstream.
Context `{Runtime} `{Upstream}.

Record state : Type := {
  st_world : world;
  st_log : list event;
}.

(** An awaited computation: it runs from a state, completes normally or
    throws, and leaves a state. *)
Definition M (A : Type) : Type := state → completion A * state.

#[global] Instance M_ret : MRet M := λ A a s, (Normal a, s).
#[global] Instance M_bind : MBind M := λ A B f m s,
  match m s with
  | (Normal a, s') => f a s'
  | (Throw e, s') => (Throw e, s')
  end.

Definition lift {A : Type} (c : completion A) : M A := λ s, (c, s).

Definition emit (ev : event) (s : state) : state :=
  {| st_world := st_world s; st_log := st_log s ++ [ev] |}.

(** [try { body } catch (error) { handler }]. *)
Definition try_catch {A : Type} (body : M A) (handler : exn → M A) : M A :=
  λ s,
    match body s with
    | (Normal a, s') => (Normal a, s')
    | (Throw e, s') => handler e s'
    end.

Definition await_axios_get (url : string) (params : json) : M json :=
  λ s,
    let (r, w) := axios_get url params (st_world s) in
    (r, {| st_world := w; st_log := st_log s ++ [AxiosGet url params] |}).

Definition await_openai_create (request : json) : M json :=
  λ s,
    let (r, w) := openai_create request (st_world s) in
    (r, {| st_world := w; st_log := st_log s ++ [OpenAICreate request] |}).

Definition console_error (message : string) (error : exn) : M unit :=
  λ s, (Normal tt, emit (ConsoleError message error) s).

(** [process.env.GECKO_API_URL || 'https://api.coingecko.com/api/v3'] *)
Definition coingeckoApi : string :=
  match GECKO_API_URL with
  | Some url => if nonempty url then url else "https://api.coingecko.com/api/v3"
  | None => "https://api.coingecko.com/api/v3"
  end.

(** *** The operations *)

(** [response.choices[0].message.content] *)
Definition first_content (response : json) : completion value :=
  get (VJson response) P_choices !. P_0 !. P_message !. P_content.

(** [`AI analysis failed for ${token.name}:`] *)
Definition failure_message : template :=
  [ Lit "AI analysis failed for "; Interp P_name; Lit ":" ].

(** Get AI Analysis for a Token *)
Definition getAiAnalysis (token : record) : M value :=
  try_catch
    (content ← lift (render token user_content);
     response ← await_openai_create (chat_request content);
     lift (first_content response))
    (λ error,
       message ← lift (render token failure_message);
       _ ← console_error message error;
       mret (VStr "AI analysis unavailable.")).

(** [data.map(f)]: only arrays have the method. *)
Definition call_map {A : Type} (data : json) (f : value → completion A)
  : completion (list A) :=
  match data with
  | JArr elems => mapM (λ e, f (VJson e)) elems
  | _ => Throw TypeError
  end.

(** The listing request:
    [axios.get(`${this.coingeckoApi}/coins/markets`, { params: ... })]. *)
Definition markets_url : string :=
  coingeckoApi +:+ "/coins/markets".

Definition markets_params : json :=
  JObj [ ("vs_currency", JStr "usd");
         ("category", JStr "ai-agents");
         ("order", JStr "market_cap_desc");
         ("per_page", JNum 100);
         ("page", JNum 1);
         ("sparkline", JBool false) ].

(** The detail request:
    [axios.get(`${this.coingeckoApi}/coins/${tokenId}`, { params: ... })]. *)
Definition details_url (tokenId : string) : string :=
  coingeckoApi +:+ "/coins/" +:+ tokenId.

Definition details_params : json :=
  JObj [ ("localization", JBool false);
         ("tickers", JBool false);
         ("market_data", JBool true);
         ("community_data", JBool false);
         ("developer_data", JBool false);
         ("sparkline", JBool true) ].

(** Fetch AI Agent Tokens (Market List) *)
Definition fetchAiAgentTokens : M (list record) :=
  try_catch
    (data ← await_axios_get markets_url markets_params;
     lift (call_map data formatAiAgentToken))
    (λ error,
       _ ← console_error "Failed to fetch AI agent tokens:" error;
       mret []).

(** Fetch Single Token Details; [None] is [null]. *)
Definition fetchTokenDetails (tokenId : string) : M (option record) :=
  try_catch
    (data ← await_axios_get (details_url tokenId) details_params;
     token ← lift (formatTokenDetails (VJson data));
     mret (Some token))
    (λ error,
       _ ← console_error ("Error fetching details for " +:+ tokenId +:+ ":")
             error;
       mret None).

(** Fetch AI-powered agent tokens from CoinGecko *)
Definition getAiAgentTokens : M (list record) :=
  tokens ← fetchAiAgentTokens;
  mret tokens.

(** Fetch token details and AI analysis; [None] is [null]. *)
Definition getTokenDetails (tokenId : string) : M (option record) :=
  token ← fetchTokenDetails tokenId;
  match token with
  | None => mret None
  | Some token =>
      aiAnalysis ← getAiAnalysis token;
      mret (Some (<["ai_insight" :=
                     js_or aiAnalysis (VStr "No AI insight available.")]> token))
  end.

End WithUpstream.

End TokenService.

(** ** The controller *)

Module TokenController.
Import JS TokenService.

Section WithUpstream.
Context `{Runtime} `{Upstream}.

(** [GET /tokens] *)
Definition getTokens : M (list record) :=
  TokenService.getAiAgentTokens.

(** [GET /tokens/:id] *)
Definition getTokenDetails (id : string) : M (option record) :=
  TokenService.getTokenDetails id.

End WithUpstream.

End TokenController.

(** ** Vocabulary of the statements *)

Module Shapes.
Import JS TokenService.

(** The keys of a [TokenSummary], in the order of the literal. *)
Definition summary_keys : list string :=
  [ "id"; "name"; "symbol"; "image"; "current_price"; "market_cap";
    "market_cap_rank"; "total_volume"; "high_24h"; "low_24h";
    "price_change_24h"; "price_change_percentage_24h"; "circulating_supply";
    "total_supply"; "max_supply"; "ath"; "ath_change_percentage"; "atl";
    "atl_change_percentage"; "last_updated" ].

(** The keys of a [TokenDetail], in the order of the literal. *)
Definition detail_keys : list string :=
  [ "id"; "name"; "symbol"; "image"; "market_cap_rank"; "current_price";
    "market_cap"; "total_volume"; "price_change_24h";
    "price_change_percentage_24h"; "circulating_supply"; "total_supply";
    "max_supply"; "ath"; "ath_change_percentage"; "ath_date"; "atl";
    "atl_change_percentage"; "atl_date"; "last_updated"; "chart_data" ].

(** The numeric fields of a [TokenSummary]. *)
Definition summary_numeric : list prop :=
  [ P_current_price; P_market_cap; P_total_volume; P_high_24h; P_low_24h;
    P_price_change_24h; P_price_change_percentage_24h; P_circulating_supply;
    P_total_supply; P_ath; P_ath_change_percentage; P_atl;
    P_atl_change_percentage ].

(** The nullable fields of both shapes. *)
Definition nullable : list prop :=
  [ P_market_cap_rank; P_max_supply ].

(** The fields of a [TokenSummary] that have a default, with the default:
    every field but [id], [name] and [symbol]. *)
Definition summary_defaults : list (prop * value) :=
  [ (P_image, VStr "");
    (P_current_price, VNum 0);
    (P_market_cap, VNum 0);
    (P_market_cap_rank, VNull);
    (P_total_volume, VNum 0);
    (P_high_24h, VNum 0);
    (P_low_24h, VNum 0);
    (P_price_change_24h, VNum 0);
    (P_price_change_percentage_24h, VNum 0);
    (P_circulating_supply, VNum 0);
    (P_total_supply, VNum 0);
    (P_max_supply, VNull);
    (P_ath, VNum 0);
    (P_ath_change_percentage, VNum 0);
    (P_atl, VNum 0);
    (P_atl_change_percentage, VNum 0);
    (P_last_updated, VStr "N/A") ].

(** [token.p1?.p2?. ... ?.pn] *)
Definition path (token : value) (ps : list prop) : value :=
  match ps with
  | [] => token
  | p :: rest => foldl opt (member token p) rest
  end.

(** The fields of a [TokenDetail] that are read along a path and have a
    default: the key, the path and the default.  [symbol], [image] and
    [chart_data] are built differently. *)
Definition detail_defaults : list (string * list prop * value) :=
  [ ("market_cap_rank", [P_market_cap_rank], VNull);
    ("current_price", [P_market_data; P_current_price; P_usd], VNum 0);
    ("market_cap", [P_market_data; P_market_cap; P_usd], VNum 0);
    ("total_volume", [P_market_data; P_total_volume; P_usd], VNum 0);
    ("price_change_24h", [P_market_data; P_price_change_24h], VNum 0);
    ("price_change_percentage_24h",
      [P_market_data; P_price_change_percentage_24h], VNum 0);
    ("circulating_supply", [P_market_data; P_circulating_supply], VNum 0);
    ("total_supply", [P_market_data; P_total_supply], VNum 0);
    ("max_supply", [P_market_data; P_max_supply], VNull);
    ("ath", [P_market_data; P_ath; P_usd], VNum 0);
    ("ath_change_percentage", [P_market_data; P_ath_change_percentage], VNum 0);
    ("ath_date", [P_market_data; P_ath_date], VStr "N/A");
    ("atl", [P_market_data; P_atl; P_usd], VNum 0);
    ("atl_change_percentage", [P_market_data; P_atl_change_percentage], VNum 0);
    ("atl_date", [P_market_data; P_atl_date], VStr "N/A");
    ("last_updated", [P_last_updated], VStr "N/A") ].

(** The upstream 7-day sparkline: [token.market_data?.sparkline_7d?.price]. *)
Definition sparkline (token : value) : value :=
  path token [P_market_data; P_sparkline_7d; P_price].

(** The last [n] elements of a sequence. *)
Definition last_n {A : Type} (n : nat) (l : list A) : list A :=
  drop (length l - n) l.

(** The fields that a template interpolates. *)
Definition interpolated (t : template) : list prop :=
  omap (λ x, match x with
             | Lit _ => None
             | Interp p => Some p
             | InterpJson p => Some p
             end) t.

(** The two fallback texts of the detail operation. *)
Definition generator_fallback : value := VStr "AI analysis unavailable.".
Definition insight_fallback : value := VStr "No AI insight available.".

(** [token.symbol?.toUpperCase()] and
    [token.market_data?.sparkline_7d?.price?.slice(-24)], for a [token] that
    is neither [null] nor [undefined]. *)
Definition upper_symbol `{Runtime} (token : value) : completion value :=
  then_opt_toUpperCase (Normal (member token P_symbol)).

Definition sliced_sparkline (token : value) : completion value :=
  then_opt_slice (Normal (sparkline token)) (-24).

(** The fields of the [TokenSummary] of [token], given its upper-cased
    symbol. *)
Definition summary_fields (token symbol : value) : list (string * value) :=
  ("id", member token P_id)
  :: ("name", member token P_name)
  :: ("symbol", js_or symbol (VStr "N/A"))
  :: ((λ pd, (prop_name pd.1, js_or (member token pd.1) pd.2))
        <$> summary_defaults).

(** The fields of the [TokenDetail] of [token], given its upper-cased symbol
    and its sliced sparkline. *)
Definition detail_fields (token symbol chart : value) : list (string * value) :=
  ("id", member token P_id)
  :: ("name", member token P_name)
  :: ("symbol", js_or symbol (VStr "N/A"))
  :: ("image",
       VImage (js_or (path token [P_image; P_thumb]) (VStr ""))
         (js_or (path token [P_image; P_small]) (VStr ""))
         (js_or (path token [P_image; P_large]) (VStr "")))
  :: ((λ kpd, (kpd.1.1, js_or (path token kpd.1.2) kpd.2)) <$> detail_defaults)
  ++ [ ("chart_data", js_or chart (VArr [])) ].

(** The rule of the normalised symbol: ["N/A"] for a symbol that is absent or
    [null]; for a string, its upper-cased text, or ["N/A"] when that text is
    empty. *)
Definition symbol_rule `{Runtime} (token : value) (r : record) : Prop :=
  (nullish (member token P_symbol) = true ∧
   r !! "symbol" = Some (VStr "N/A"))
  ∨ (∃ s, member token P_symbol = VStr s ∧
          r !! "symbol" =
            Some (VStr (if nonempty (toUpperCase s)
                        then toUpperCase s else "N/A"))).

(** The detail operation, run from [s], returns a record whose [ai_insight]
    is [v]. *)
Definition answers_with `{Runtime} `{Upstream}
    (tokenId : string) (s : state) (v : value) : Prop :=
  ∃ (r : record) (s' : state),
    getTokenDetails tokenId s = (Normal (Some r), s') ∧
    r !! "ai_insight" = Some v.

(** The events that a run from [s] to [s'] has added to the log. *)
Definition new_events `{Upstream} (s s' : state) : list event :=
  drop (length (st_log s)) (st_log s').

(** An event that only a run of the generator on [token] adds to the log:
    a call to the completion endpoint, or the line of its [catch] block. *)
Definition generator_event `{Runtime} `{Upstream}
    (token : record) (ev : event) : Prop :=
  (∃ request, ev = OpenAICreate request)
  ∨ (∃ message e,
       ev = ConsoleError message e ∧
       render token failure_message = Normal message).

(** Strings and arrays, the two kinds of value that have the methods the
    normalisers call. *)
Definition is_string (v : value) : bool :=
  match v with
  | VJson (JStr _) => true
  | _ => false
  end.

Definition is_array (v : value) : bool :=
  match v with
  | VJson (JArr _) => true
  | _ => false
  end.

(** The pieces of the prompt that make its line on the 24h range. *)
Definition range_line : template :=
  take 4 (drop 12 user_content).

End Shapes.

(** ** Stand-ins for the runtime and for the two providers *)

Module Stub.
Import JS TokenService Shapes.

(** Upper-casing of the letters [a] to [z]; what [toUpperCase] does on text
    that has no other letters. *)
Definition upper_ascii (c : ascii) : ascii :=
  let n := nat_of_ascii c in
  if (97 <=? n)%nat && (n <=? 122)%nat then ascii_of_nat (n - 32) else c.

Fixpoint upper (s : string) : string :=
  match s with
  | EmptyString => EmptyString
  | String c rest => String (upper_ascii c) (upper rest)
  end.

(** Decimal text of a float that is a whole number below [10^21]; [?]
    stands for the text of any other finite number. *)
Definition number_text (n : float) : string :=
  match Prim2SF n with
  | S754_zero _ => "0"
  | S754_infinity false => "Infinity"
  | S754_infinity true => "-Infinity"
  | S754_nan => "NaN"
  | S754_finite sign m e =>
      let whole (z : Z) : string :=
        if (z <? 10 ^ 21)%Z
        then (if sign then "-" +:+ pretty z else pretty z)
        else "?" in
      if (0 <=? e)%Z then whole (Z.pos m * 2 ^ e)%Z
      else if (Z.pos m mod 2 ^ (- e) =? 0)%Z then whole (Z.pos m / 2 ^ (- e))%Z
      else "?"
  end.

Definition comma_separated (l : list string) : string :=
  match l with
  | [] => ""
  | s :: rest => foldl (λ acc t, acc +:+ "," +:+ t) s rest
  end.

Definition quoted (s : string) : string :=
  String (ascii_of_nat 34) s +:+ String (ascii_of_nat 34) EmptyString.

(** The text of JSON data, with the characters of a string quoted as they
    are; a number that is not finite prints as [null]. *)
Fixpoint json_text (j : json) : string :=
  match j with
  | JNull => "null"
  | JBool true => "true"
  | JBool false => "false"
  | JNum n =>
      match Prim2SF n with
      | S754_nan => "null"
      | S754_infinity _ => "null"
      | _ => number_text n
      end
  | JStr s => quoted s
  | JArr elems => "[" +:+ comma_separated (map json_text elems) +:+ "]"
  | JObj members =>
      "{" +:+ comma_separated
                (map (λ kv, quoted kv.1 +:+ ":" +:+ json_text kv.2) members)
          +:+ "}"
  end.

(** The text of a value; a member that is [undefined] or a function is left
    out of the text of an object. *)
Fixpoint value_text (v : value) : option string :=
  match v with
  | VUndef => None
  | VFun _ => None
  | VJson j => Some (json_text j)
  | VImage thumb small large =>
      let member_text (k : string) (text : option string) : list string :=
        match text with
        | Some t => [quoted k +:+ ":" +:+ t]
        | None => []
        end in
      Some ("{" +:+ comma_separated
                      (member_text "thumb" (value_text thumb)
                       ++ member_text "small" (value_text small)
                       ++ member_text "large" (value_text large))
                +:+ "}")
  end.

Definition stringify (v : value) : value :=
  match value_text v with
  | Some text => VStr text
  | None => VUndef
  end.

#[export] Instance runtime : Runtime := {|
  toUpperCase := upper;
  NumberToString := number_text;
  JSON_stringify := stringify;
|}.

(** The answers of stubbed providers: one for the listing endpoint, one for
    the detail endpoint, one for the completion endpoint. *)
Record canned : Type := {
  listing : completion json;
  detail : completion json;
  chat : completion json;
}.

#[export] Instance upstream : Upstream := {|
  world := canned;
  axios_get url params w :=
    (if String.eqb url "https://api.coingecko.com/api/v3/coins/markets"
     then listing w else detail w, w);
  openai_create request w := (chat w, w);
  GECKO_API_URL := None;
|}.

Definition start (w : canned) : state :=
  {| st_world := w; st_log := [] |}.

Definition unreachable : completion json := Throw (Rejected "Network Error").

(** A completion whose first choice carries [text]. *)
Definition completion_with (text : string) : json :=
  JObj [ ("choices",
           JArr [ JObj [ ("index", JNum 0);
                         ("message", JObj [ ("role", JStr "assistant");
                                            ("content", JStr text) ]) ] ]) ].

(** The detail record of the end-to-end example. *)
Definition bitcoin : json :=
  JObj [ ("id", JStr "bitcoin");
         ("symbol", JStr "btc");
         ("market_data",
           JObj [ ("current_price", JObj [ ("usd", JNum 42000) ]) ]) ].

(** A list record with identifier, name and symbol only. *)
Definition partial_summary : json :=
  JObj [ ("id", JStr "fetch-ai"); ("name", JStr "Fetch.ai");
         ("symbol", JStr "fet") ].

(** A list record whose optional fields are present but falsy. *)
Definition falsy_summary : json :=
  JObj [ ("id", JStr "fetch-ai"); ("name", JStr "Fetch.ai");
         ("symbol", JStr ""); ("current_price", JNull);
         ("market_cap_rank", JNum 0); ("last_updated", JStr "") ].

(** A detail record with a sparkline of thirty points, [1] to [30]. *)
Definition thirty_points : list json :=
  map (λ n, JNum (PrimFloat.of_uint63 (Uint63.of_Z (Z.of_nat n)))) (seq 1 30).

Definition with_sparkline : json :=
  JObj [ ("id", JStr "bitcoin");
         ("symbol", JStr "btc");
         ("market_data",
           JObj [ ("sparkline_7d", JObj [ ("price", JArr thirty_points) ]) ]) ].

(** Worlds: the detail endpoint is down; both providers answer; the
    completion endpoint is down; the completion is empty; the completion
    is literally the text of the generator's fallback. *)
Definition detail_down : canned :=
  {| listing := unreachable; detail := unreachable;
     chat := Normal (completion_with "Hold.") |}.

Definition all_up : canned :=
  {| listing := Normal (JArr [partial_summary]); detail := Normal bitcoin;
     chat := Normal (completion_with "Hold.") |}.

Definition chat_down : canned :=
  {| listing := unreachable; detail := Normal bitcoin; chat := unreachable |}.

Definition chat_empty : canned :=
  {| listing := unreachable; detail := Normal bitcoin;
     chat := Normal (completion_with "") |}.

Definition chat_echoes_fallback : canned :=
  {| listing := unreachable; detail := Normal bitcoin;
     chat := Normal (completion_with "AI analysis unavailable.") |}.

Definition listing_down : canned :=
  {| listing := unreachable; detail := unreachable; chat := unreachable |}.

(** A list record without identifier and without name. *)
Definition anonymous : json :=
  JObj [ ("symbol", JStr "fet"); ("current_price", JNum 2) ].

(** The [TokenDetail] of [bitcoin]. *)
Definition bitcoin_detail : record :=
  list_to_map (detail_fields (VJson bitcoin) (VStr "BTC") VUndef).

Definition bitcoin_prompt : string :=
  match render bitcoin_detail user_content with
  | Normal text => text
  | Throw _ => ""
  end.

(** The state after the detail fetch for [bitcoin] from [start w]. *)
Definition fetched (w : canned) : state :=
  {| st_world := w;
     st_log := [ AxiosGet "https://api.coingecko.com/api/v3/coins/bitcoin"
                   details_params ] |}.

(** The state after the generator has answered, from [fetched w]. *)
Definition generated (w : canned) : state :=
  {| st_world := w;
     st_log := [ AxiosGet "https://api.coingecko.com/api/v3/coins/bitcoin"
                   details_params;
                 OpenAICreate (chat_request bitcoin_prompt) ] |}.

(** The [TokenSummary] of [partial_summary], of [anonymous] and of
    [falsy_summary]. *)
Definition partial_normalised : record :=
  list_to_map (summary_fields (VJson partial_summary) (VStr "FET")).

Definition anonymous_normalised : record :=
  list_to_map (summary_fields (VJson anonymous) (VStr "FET")).

Definition falsy_normalised : record :=
  list_to_map (summary_fields (VJson falsy_summary) (VStr "")).

(** A detail record whose optional fields are present but falsy, and its
    [TokenDetail]. *)
Definition falsy_detail : json :=
  JObj [ ("id", JStr "fetch-ai"); ("name", JStr "Fetch.ai");
         ("symbol", JStr ""); ("market_cap_rank", JNum 0);
         ("last_updated", JStr "");
         ("market_data",
           JObj [ ("current_price", JObj [ ("usd", JNull) ]);
                  ("ath_date", JStr "") ]) ].

Definition falsy_detail_normalised : record :=
  list_to_map (detail_fields (VJson falsy_detail) (VStr "") VUndef).

(** The [TokenDetail] of [with_sparkline]. *)
Definition sparkline_detail : record :=
  list_to_map
    (detail_fields (VJson with_sparkline) (VStr "BTC")
       (VArr (last_n 24 thirty_points))).

(** A listing endpoint that answers with something that is no array, and
    one whose array has a [null] element. *)
Definition listing_no_array : canned :=
  {| listing := Normal (JObj [ ("error", JStr "rate limited") ]);
     detail := unreachable; chat := unreachable |}.

Definition listing_null_element : canned :=
  {| listing := Normal (JArr [ partial_summary; JNull ]);
     detail := unreachable; chat := unreachable |}.

(** A list record whose symbol is the number [0], and a detail record whose
    sparkline is the number [0]: present, falsy, and no string. *)
Definition zero_symbol : json :=
  JObj [ ("id", JStr "fetch-ai"); ("name", JStr "Fetch.ai");
         ("symbol", JNum 0) ].

Definition zero_sparkline : json :=
  JObj [ ("id", JStr "bitcoin");
         ("symbol", JStr "btc");
         ("market_data",
           JObj [ ("sparkline_7d", JObj [ ("price", JNum 0) ]) ]) ].



End Stub.

(** ** Vocabulary of the further statements *)

Module Behaviour.
Import JS TokenService Shapes.

(** The calls to the completion endpoint among some events. *)
Definition is_openai_call (ev : event) : bool :=
  match ev with
  | OpenAICreate _ => true
  | _ => false
  end.

Definition openai_calls (evs : list event) : list event :=
  List.filter is_openai_call evs.

(** A value that is neither an array nor an object: [undefined], [null], a
    boolean, a number or a string. *)
Definition primitive (v : value) : bool :=
  match v with
  | VUndef => true
  | VJson JNull => true
  | VJson (JBool _) => true
  | VJson (JNum _) => true
  | VJson (JStr _) => true
  | _ => false
  end.

(** A body that has none of the properties the normalisers read: a
    boolean, a number, a string, an array, or the empty object. *)
Definition propertyless (j : json) : bool :=
  match j with
  | JBool _ => true
  | JNum _ => true
  | JStr _ => true
  | JArr _ => true
  | JObj [] => true
  | _ => false
  end.

(** The keys that the detail normaliser reads on the token itself. *)
Definition detail_top_keys : list string :=
  [ "id"; "name"; "symbol"; "image"; "market_cap_rank"; "market_data";
    "last_updated" ].

(** The [TokenSummary] and the [TokenDetail] of the empty object: [id] and
    [name] are [undefined], every other field has its default. *)
Definition default_summary : record :=
  list_to_map (summary_fields (VJson (JObj [])) VUndef).

Definition default_detail : record :=
  list_to_map (detail_fields (VJson (JObj [])) VUndef VUndef).

(** The state that a run from [s] leaves after the events [evs], in the
    world [w]. *)
Definition after `{Upstream} (s : state) (w : world) (evs : list event)
  : state :=
  {| st_world := w; st_log := st_log s ++ evs |}.

End Behaviour.

(** ** Further stand-ins *)

Module Doubles.
Import JS TokenService Shapes Stub Behaviour.

(** An object that cannot be converted to a string. *)
Definition unprintable : json :=
  JObj [ ("toString", JNum 1) ].

(** A detail record whose name is such an object, and its [TokenDetail]. *)
Definition unnamed_detail : json :=
  JObj [ ("id", JStr "nameless"); ("name", unprintable) ].

Definition unnamed_normalised : record :=
  list_to_map (detail_fields (VJson unnamed_detail) VUndef VUndef).

(** A detail record whose price is such an object, and its [TokenDetail]. *)
Definition unpriced_detail : json :=
  JObj [ ("id", JStr "bitcoin"); ("name", JStr "Bitcoin");
         ("symbol", JStr "btc");
         ("market_data",
           JObj [ ("current_price", JObj [ ("usd", unprintable) ]) ]) ].

Definition unpriced_normalised : record :=
  list_to_map (detail_fields (VJson unpriced_detail) (VStr "BTC") VUndef).

(** A detail record whose symbol is a number. *)
Definition numeric_symbol : json :=
  JObj [ ("id", JStr "five"); ("symbol", JNum 5) ].

(** A body that is a page of text. *)
Definition html_page : json :=
  JStr "<!DOCTYPE html><title>Just a moment...</title>".

(** A detail record whose image is a URL, as in a list record, and one with
    an unrelated member more than [bitcoin]. *)
Definition image_url_detail : json :=
  JObj [ ("id", JStr "bitcoin");
         ("image", JStr "https://assets.example/btc.png") ].

Definition bitcoin_with_links : json :=
  JObj [ ("links", JObj [ ("homepage", JStr "https://bitcoin.org") ]);
         ("id", JStr "bitcoin");
         ("symbol", JStr "btc");
         ("market_data",
           JObj [ ("current_price", JObj [ ("usd", JNum 42000) ]) ]) ].

(** A detail endpoint that answers [data], with a generator that answers
    ["Hold."]. *)
Definition answering (data : json) : canned :=
  {| listing := unreachable; detail := Normal data;
     chat := Normal (completion_with "Hold.") |}.

(** A listing endpoint that answers with the array of [elems]. *)
Definition listing_of (elems : list json) : canned :=
  {| listing := Normal (JArr elems); detail := unreachable;
     chat := unreachable |}.

(** The [TokenDetail] of [image_url_detail], and that of the list record
    [partial_summary] when it is given to the detail normaliser. *)
Definition image_url_normalised : record :=
  list_to_map (detail_fields (VJson image_url_detail) VUndef VUndef).

Definition flat_normalised : record :=
  list_to_map (detail_fields (VJson partial_summary) (VStr "FET") VUndef).

End Doubles.

(** ** Facts about the fragment of JavaScript *)

Module JSFacts.
Import JS TokenService Shapes.

Lemma Normal_inj {A : Type} (a b : A) : Normal a = Normal b → a = b.
Proof. congruence. Qed.

Lemma get_nullish v p : nullish v = true → get v p = Throw TypeError.
Proof. unfold get. by intros ->. Qed.

Lemma get_member v p : nullish v = false → get v p = Normal (member v p).
Proof. unfold get. by intros ->. Qed.

Lemma truthy_not_nullish v : truthy v = true → nullish v = false.
Proof. by destruct v as [| |[]|]. Qed.

Lemma js_or_truthy a d : truthy a = true → js_or a d = a.
Proof. unfold js_or. by intros ->. Qed.

Lemma js_or_falsy a d : truthy a = false → js_or a d = d.
Proof. unfold js_or. by intros ->. Qed.


(** [a || d] is [null] or [undefined] only if the default [d] is. *)
Lemma js_or_not_nullish a d : nullish d = false → nullish (js_or a d) = false.
Proof.
  unfold js_or. destruct (truthy a) eqn:E; [|done].
  intros _. by apply truthy_not_nullish.
Qed.

(** *** [slice(-24)] *)

Lemma slice_start_last (n len : nat) :
  slice_start (- Z.of_nat n) len = (len - n)%nat ∨ n = 0%nat.
Proof.
  unfold slice_start. destruct (Z.ltb_spec (- Z.of_nat n) 0); [left|right]; lia.
Qed.

Lemma list_slice_last_24 {A : Type} (l : list A) :
  list_slice (-24) l = last_n 24 l.
Proof.
  unfold list_slice, last_n.
  destruct (slice_start_last 24 (length l)) as [E|?]; [|lia].
  change (- Z.of_nat 24)%Z with (-24)%Z in E. by rewrite E.
Qed.

Lemma length_last_n {A : Type} (n : nat) (l : list A) :
  length (last_n n l) = Nat.min n (length l).
Proof. unfold last_n. rewrite length_drop. lia. Qed.

Lemma last_n_suffix {A : Type} (n : nat) (l : list A) :
  last_n n l `suffix_of` l.
Proof. apply suffix_drop. Qed.

Lemma length_string_drop (n : nat) (s : string) :
  String.length (string_drop n s) = (String.length s - n)%nat.
Proof.
  revert s. induction n as [|n IH]; intros s; cbn.
  - lia.
  - destruct s as [|c s]; [done|]. cbn. apply IH.
Qed.

Lemma length_string_slice_24 (s : string) :
  (String.length (string_slice (-24) s) ≤ 24)%nat.
Proof.
  unfold string_slice. rewrite length_string_drop.
  destruct (slice_start_last 24 (String.length s)) as [E|?]; [|lia].
  change (- Z.of_nat 24)%Z with (-24)%Z in E. rewrite E. lia.
Qed.

(** What [e?.slice(-24)] can return. *)
Lemma then_opt_slice_Normal v x :
  then_opt_slice (Normal v) (-24) = Normal x →
  (nullish v = true ∧ x = VUndef)
  ∨ (∃ l, v = VArr l ∧ x = VArr (last_n 24 l))
  ∨ (∃ s, v = VStr s ∧ x = VStr (string_slice (-24) s)).
Proof.
  intros Hx. unfold then_opt_slice, call_slice in Hx.
  destruct v as [| |[]|]; cbn [mbind completion_bind nullish] in Hx;
    try discriminate Hx; apply Normal_inj in Hx; subst x.
  - left. by split.
  - left. by split.
  - right. right. by eexists.
  - right. left. eexists. by rewrite list_slice_last_24.
Qed.

Section WithRuntime.
Context `{Runtime}.

(** What [e?.toUpperCase()] can return. *)
Lemma then_opt_toUpperCase_Normal v x :
  then_opt_toUpperCase (Normal v) = Normal x →
  (nullish v = true ∧ x = VUndef)
  ∨ (∃ s, v = VStr s ∧ x = VStr (toUpperCase s)).
Proof.
  intros Hx. unfold then_opt_toUpperCase, call_toUpperCase in Hx.
  destruct v as [| |[]|]; cbn in Hx; try discriminate Hx;
    apply Normal_inj in Hx; subst x.
  - left. by split.
  - left. by split.
  - right. by eexists.
Qed.

End WithRuntime.

End JSFacts.

(** ** Facts about the two normalisers *)

Module NormaliserFacts.
Import JS TokenService Shapes JSFacts.

Lemma NoDup_summary_keys : NoDup summary_keys.
Proof. apply (bool_decide_unpack _). by vm_compute. Qed.

Lemma NoDup_detail_keys : NoDup detail_keys.
Proof. apply (bool_decide_unpack _). by vm_compute. Qed.

Lemma summary_fields_keys token symbol :
  (summary_fields token symbol).*1 = summary_keys.
Proof. reflexivity. Qed.

Lemma detail_fields_keys token symbol chart :
  (detail_fields token symbol chart).*1 = detail_keys.
Proof. reflexivity. Qed.

(** A literal without repeated keys is the map of its fields, whatever the
    order in which they were written. *)
Lemma list_to_map_reverse (fields : list (string * value)) :
  NoDup fields.*1 →
  (list_to_map (reverse fields) : record) = list_to_map fields.
Proof.
  intros Hnd. apply list_to_map_proper.
  - by rewrite fmap_reverse, reverse_Permutation.
  - by rewrite reverse_Permutation.
Qed.

Section WithRuntime.
Context `{Runtime}.

(** The list normaliser returns only on a token that is neither [null] nor
    [undefined] and whose symbol can be upper-cased, and then returns the
    map of [summary_fields]. *)
Lemma formatAiAgentToken_inv token r :
  formatAiAgentToken token = Normal r →
  nullish token = false ∧
  ∃ symbol, upper_symbol token = Normal symbol ∧
            r = list_to_map (summary_fields token symbol).
Proof.
  unfold formatAiAgentToken, object_literal.
  destruct (nullish token) eqn:E.
  { rewrite !(get_nullish _ _ E). discriminate. }
  rewrite !(get_member _ _ E). intros Hr. split; [done|].
  change (then_opt_toUpperCase (Normal (member token P_symbol)))
    with (upper_symbol token) in Hr.
  destruct (upper_symbol token) as [symbol|e]; [|discriminate Hr].
  exists symbol. split; [done|].
  cbn in Hr. apply Normal_inj in Hr. subst r.
  rewrite <- list_to_map_reverse.
  - reflexivity.
  - rewrite summary_fields_keys. apply NoDup_summary_keys.
Qed.

(** The detail normaliser returns only on a token that is neither [null]
    nor [undefined], whose symbol can be upper-cased and whose sparkline can
    be sliced, and then returns the map of [detail_fields]. *)
Lemma formatTokenDetails_inv token r :
  formatTokenDetails token = Normal r →
  nullish token = false ∧
  ∃ symbol chart,
    upper_symbol token = Normal symbol ∧
    sliced_sparkline token = Normal chart ∧
    r = list_to_map (detail_fields token symbol chart).
Proof.
  unfold formatTokenDetails, object_literal, image_literal.
  destruct (nullish token) eqn:E.
  { rewrite !(get_nullish _ _ E). discriminate. }
  rewrite !(get_member _ _ E). intros Hr. split; [done|].
  change (then_opt_toUpperCase (Normal (member token P_symbol)))
    with (upper_symbol token) in Hr.
  change (then_opt_slice _ (-24)) with (sliced_sparkline token) in Hr.
  destruct (upper_symbol token) as [symbol|e]; [|discriminate Hr].
  destruct (sliced_sparkline token) as [chart|e]; [|discriminate Hr].
  exists symbol, chart. split; [done|]. split; [done|].
  cbn in Hr. apply Normal_inj in Hr. subst r.
  rewrite <- list_to_map_reverse.
  - reflexivity.
  - rewrite detail_fields_keys. apply NoDup_detail_keys.
Qed.

(** Conversely, both normalisers return on such a token. *)
Lemma formatAiAgentToken_returns token symbol :
  nullish token = false →
  upper_symbol token = Normal symbol →
  formatAiAgentToken token = Normal (list_to_map (summary_fields token symbol)).
Proof.
  intros E Hs. unfold formatAiAgentToken, object_literal.
  rewrite !(get_member _ _ E).
  change (then_opt_toUpperCase (Normal (member token P_symbol)))
    with (upper_symbol token).
  rewrite Hs.
  rewrite <- list_to_map_reverse
    by (rewrite summary_fields_keys; apply NoDup_summary_keys).
  reflexivity.
Qed.

Lemma formatTokenDetails_returns token symbol chart :
  nullish token = false →
  upper_symbol token = Normal symbol →
  sliced_sparkline token = Normal chart →
  formatTokenDetails token =
    Normal (list_to_map (detail_fields token symbol chart)).
Proof.
  intros E Hs Hc. unfold formatTokenDetails, object_literal, image_literal.
  rewrite !(get_member _ _ E).
  change (then_opt_toUpperCase (Normal (member token P_symbol)))
    with (upper_symbol token).
  change (then_opt_slice _ (-24)) with (sliced_sparkline token).
  rewrite Hs, Hc.
  rewrite <- list_to_map_reverse
    by (rewrite detail_fields_keys; apply NoDup_detail_keys).
  reflexivity.
Qed.

End WithRuntime.

(** *** Reading the fields of a normalised token *)

Lemma summary_lookup token symbol k v :
  (k, v) ∈ summary_fields token symbol ↔
  (list_to_map (summary_fields token symbol) : record) !! k = Some v.
Proof.
  apply elem_of_list_to_map.
  rewrite summary_fields_keys. apply NoDup_summary_keys.
Qed.

Lemma detail_lookup token symbol chart k v :
  (k, v) ∈ detail_fields token symbol chart ↔
  (list_to_map (detail_fields token symbol chart) : record) !! k = Some v.
Proof.
  apply elem_of_list_to_map.
  rewrite detail_fields_keys. apply NoDup_detail_keys.
Qed.

Lemma summary_default_field token symbol p d :
  (p, d) ∈ summary_defaults →
  (prop_name p, js_or (member token p) d) ∈ summary_fields token symbol.
Proof.
  intros Hin. unfold summary_fields. do 3 apply list_elem_of_further.
  by apply (list_elem_of_fmap_2
              (λ pd : prop * value,
                 (prop_name pd.1, js_or (member token pd.1) pd.2)) _ (p, d)).
Qed.

Lemma detail_default_field token symbol chart k ps d :
  (k, ps, d) ∈ detail_defaults →
  (k, js_or (path token ps) d) ∈ detail_fields token symbol chart.
Proof.
  intros Hin. unfold detail_fields. do 4 apply list_elem_of_further.
  apply elem_of_app. left.
  by apply (list_elem_of_fmap_2
              (λ kpd : string * list prop * value,
                 (kpd.1.1, js_or (path token kpd.1.2) kpd.2)) _ (k, ps, d)).
Qed.





(** On a parsed object, a property reads as [undefined] exactly when the
    key is missing. *)
Lemma member_object_absent members p :
  member (VJson (JObj members)) p = VUndef ↔
  assoc (prop_name p) members = None.
Proof. cbn. by destruct (assoc (prop_name p) members). Qed.

End NormaliserFacts.

(** ** When the normalisers return *)

Module NormaliserCases.
Import JS TokenService Shapes JSFacts NormaliserFacts.

(** A falsy value that is neither [null] nor [undefined] nor a string is
    [false], [0], [-0] or [NaN]. *)
Lemma falsy_cases v :
  truthy v = false →
  nullish v = true ∨ v = VStr "" ∨ (nullish v = false ∧ is_string v = false).
Proof.
  destruct v as [| |[| | |s| |]|]; cbn; intros Hv;
    try (by left); try (by right; right); try discriminate Hv.
  right. left. by destruct s.
Qed.

(** What [price?.slice(-24)] does, by the kind of the sparkline. *)
Lemma sliced_sparkline_cases token :
  (nullish (sparkline token) = true ∧ sliced_sparkline token = Normal VUndef)
  ∨ (∃ l, sparkline token = VArr l ∧
          sliced_sparkline token = Normal (VArr (last_n 24 l)))
  ∨ (∃ s, sparkline token = VStr s ∧
          sliced_sparkline token = Normal (VStr (string_slice (-24) s)))
  ∨ (nullish (sparkline token) = false ∧
     is_string (sparkline token) = false ∧
     is_array (sparkline token) = false ∧
     sliced_sparkline token = Throw TypeError).
Proof.
  unfold sliced_sparkline, then_opt_slice, call_slice.
  destruct (sparkline token) as [| |[]|];
    cbn [mbind completion_bind nullish].
  - left. by split.
  - right. right. right. by repeat split.
  - left. by split.
  - right. right. right. by repeat split.
  - right. right. right. by repeat split.
  - right. right. left. by eexists.
  - right. left. eexists. by rewrite list_slice_last_24.
  - right. right. right. by repeat split.
  - right. right. right. by repeat split.
Qed.

(** A token that is [null] or [undefined] has no sparkline. *)
Lemma sparkline_of_nullish token :
  nullish token = true → nullish (sparkline token) = true.
Proof. by destruct token as [| |[]|]. Qed.

Section WithRuntime.
Context `{Runtime}.

(** What [token.symbol?.toUpperCase()] does, by the kind of the symbol. *)
Lemma upper_symbol_cases token :
  (nullish (member token P_symbol) = true ∧
   upper_symbol token = Normal VUndef)
  ∨ (∃ s, member token P_symbol = VStr s ∧
          upper_symbol token = Normal (VStr (toUpperCase s)))
  ∨ (nullish (member token P_symbol) = false ∧
     is_string (member token P_symbol) = false ∧
     upper_symbol token = Throw TypeError).
Proof.
  unfold upper_symbol, then_opt_toUpperCase, call_toUpperCase.
  destruct (member token P_symbol) as [| |[]|];
    cbn [mbind completion_bind nullish].
  - left. by split.
  - right. right. by repeat split.
  - left. by split.
  - right. right. by repeat split.
  - right. right. by repeat split.
  - right. left. by eexists.
  - right. right. by repeat split.
  - right. right. by repeat split.
  - right. right. by repeat split.
Qed.

(** The list normaliser throws what the upper-casing of the symbol throws. *)
Lemma formatAiAgentToken_throws token e :
  nullish token = false →
  upper_symbol token = Throw e →
  formatAiAgentToken token = Throw e.
Proof.
  intros E Hs. unfold formatAiAgentToken, object_literal.
  rewrite !(get_member _ _ E).
  change (then_opt_toUpperCase (Normal (member token P_symbol)))
    with (upper_symbol token).
  rewrite Hs. reflexivity.
Qed.

(** The detail normaliser throws what the upper-casing of the symbol
    throws, and otherwise what the slicing of the sparkline throws. *)
Lemma formatTokenDetails_throws_symbol token e :
  nullish token = false →
  upper_symbol token = Throw e →
  formatTokenDetails token = Throw e.
Proof.
  intros E Hs. unfold formatTokenDetails, object_literal, image_literal.
  rewrite !(get_member _ _ E).
  change (then_opt_toUpperCase (Normal (member token P_symbol)))
    with (upper_symbol token).
  rewrite Hs. reflexivity.
Qed.

Lemma formatTokenDetails_throws_chart token symbol e :
  nullish token = false →
  upper_symbol token = Normal symbol →
  sliced_sparkline token = Throw e →
  formatTokenDetails token = Throw e.
Proof.
  intros E Hs Hc. unfold formatTokenDetails, object_literal, image_literal.
  rewrite !(get_member _ _ E).
  change (then_opt_toUpperCase (Normal (member token P_symbol)))
    with (upper_symbol token).
  change (then_opt_slice _ (-24)) with (sliced_sparkline token).
  rewrite Hs, Hc. reflexivity.
Qed.

(** The symbol and the chart of a normalised token. *)
Lemma summary_symbol token symbol :
  (list_to_map (summary_fields token symbol) : record) !! "symbol"
    = Some (js_or symbol (VStr "N/A")).
Proof.
  apply summary_lookup. do 2 apply list_elem_of_further.
  apply list_elem_of_here.
Qed.

Lemma detail_symbol token symbol chart :
  (list_to_map (detail_fields token symbol chart) : record) !! "symbol"
    = Some (js_or symbol (VStr "N/A")).
Proof.
  apply detail_lookup. do 2 apply list_elem_of_further.
  apply list_elem_of_here.
Qed.

Lemma detail_chart token symbol chart :
  (list_to_map (detail_fields token symbol chart) : record) !! "chart_data"
    = Some (js_or chart (VArr [])).
Proof.
  apply detail_lookup. unfold detail_fields.
  do 4 apply list_elem_of_further. apply elem_of_app. right.
  apply list_elem_of_here.
Qed.

Lemma detail_image token symbol chart :
  (list_to_map (detail_fields token symbol chart) : record) !! "image"
    = Some (VImage (js_or (path token [P_image; P_thumb]) (VStr ""))
              (js_or (path token [P_image; P_small]) (VStr ""))
              (js_or (path token [P_image; P_large]) (VStr ""))).
Proof.
  apply detail_lookup. do 3 apply list_elem_of_further.
  apply list_elem_of_here.
Qed.

(** A falsy symbol on which the upper-casing returns gives no symbol, when
    the empty string upper-cases to itself. *)
Lemma upper_symbol_falsy token symbol :
  toUpperCase "" = "" →
  truthy (member token P_symbol) = false →
  upper_symbol token = Normal symbol →
  js_or symbol (VStr "N/A") = VStr "N/A".
Proof.
  intros Hup Hfalsy Hs.
  destruct (upper_symbol_cases token)
    as [[_ Hu]|[(s & Hsym & Hu)|(_ & _ & Hu)]];
    rewrite Hu in Hs; [| |discriminate Hs]; apply Normal_inj in Hs;
    subst symbol; [done|].
  rewrite Hsym in Hfalsy. destruct s; [|discriminate Hfalsy].
  by rewrite Hup.
Qed.

(** A falsy sparkline on which the slicing returns gives no chart. *)
Lemma sliced_sparkline_falsy token chart :
  truthy (sparkline token) = false →
  sliced_sparkline token = Normal chart →
  js_or chart (VArr []) = VArr [].
Proof.
  intros Hfalsy Hc.
  destruct (sliced_sparkline_cases token)
    as [[_ Hu]|[(l & Hsp & Hu)|[(s & Hsp & Hu)|(_ & _ & _ & Hu)]]];
    rewrite Hu in Hc; [| | |discriminate Hc]; apply Normal_inj in Hc;
    subst chart; [done| |].
  - rewrite Hsp in Hfalsy. discriminate Hfalsy.
  - rewrite Hsp in Hfalsy. by destruct s.
Qed.

End WithRuntime.

End NormaliserCases.

(** ** The normalised shapes *)

Module Normalisation.
Import JS TokenService Shapes JSFacts NormaliserFacts NormaliserCases.

Section WithRuntime.
Context `{Runtime}.


(** C6.  Whenever the list normaliser returns, each numeric field of the
    [TokenSummary] is neither [null] nor [undefined], and is [0] when the
    upstream record has no such field; the nullable fields
    [market_cap_rank] and [max_supply] are [null] when the upstream record
    has no such field. *)
Theorem C6_missing_numeric_fields_are_zero (token : value) (r : record) :
  formatAiAgentToken token = Normal r →
  (∀ p, p ∈ summary_numeric →
     ∃ v, r !! prop_name p = Some v ∧
          nullish v = false ∧
          (member token p = VUndef → v = VNum 0)) ∧
  (∀ p, p ∈ nullable →
     member token p = VUndef → r !! prop_name p = Some VNull).
Proof.
  intros Hr. apply formatAiAgentToken_inv in Hr as (_ & symbol & _ & ->).
  split.
  - intros p Hp. exists (js_or (member token p) (VNum 0)).
    split; [|split].
    + apply summary_lookup, summary_default_field.
      unfold summary_numeric in Hp. unfold summary_defaults.
      repeat (apply elem_of_cons in Hp as [->|Hp];
              [by repeat (first [apply list_elem_of_here
                                |apply list_elem_of_further])|]).
      by apply elem_of_nil in Hp.
    + by apply js_or_not_nullish.
    + by intros ->.
  - intros p Hp Hmiss.
    replace VNull with (js_or (member token p) VNull) by by rewrite Hmiss.
    apply summary_lookup, summary_default_field.
    unfold nullable in Hp. unfold summary_defaults.
    repeat (apply elem_of_cons in Hp as [->|Hp];
            [by repeat (first [apply list_elem_of_here
                              |apply list_elem_of_further])|]).
    by apply elem_of_nil in Hp.
Qed.

(** The symbol rule holds for the upper-cased symbol of any token. *)
Lemma symbol_rule_of_fields token symbol (r : record) :
  upper_symbol token = Normal symbol →
  r !! "symbol" = Some (js_or symbol (VStr "N/A")) →
  symbol_rule token r.
Proof.
  intros Hs Hr. unfold upper_symbol in Hs.
  apply then_opt_toUpperCase_Normal in Hs as [[Hnull ->]|(s & Hstr & ->)].
  - left. by split.
  - right. exists s. split; [done|]. rewrite Hr.
    unfold js_or. cbn. by destruct (nonempty (toUpperCase s)).
Qed.

(** C7, as amended.  Whenever a normaliser returns, the upstream symbol is
    absent, [null] or a string; the normalised symbol is the upstream
    symbol converted to upper case when that text is not empty, and is
    ["N/A"] when the upstream symbol is absent, [null] or empty.  This holds
    in both normalisations. *)
Theorem C7_symbol_upper_cased_or_NA (token : value) :
  (∀ r : record, formatAiAgentToken token = Normal r → symbol_rule token r) ∧
  (∀ r : record, formatTokenDetails token = Normal r → symbol_rule token r).
Proof.
  split; intros r Hr.
  - apply formatAiAgentToken_inv in Hr as (_ & symbol & Hs & ->).
    apply (symbol_rule_of_fields _ symbol); [done|].
    apply summary_lookup. do 2 apply list_elem_of_further.
    apply list_elem_of_here.
  - apply formatTokenDetails_inv in Hr as (_ & symbol & chart & Hs & _ & ->).
    apply (symbol_rule_of_fields _ symbol); [done|].
    apply detail_lookup. do 2 apply list_elem_of_further.
    apply list_elem_of_here.
Qed.

(** C8.  Whenever the detail normaliser returns, [chart_data] has length at
    most 24; it is the last 24 points of the upstream 7-day sparkline when
    that is a sequence, and the empty sequence when the sparkline is
    absent. *)
Theorem C8_chart_data_last_24_points (token : value) (r : record) :
  formatTokenDetails token = Normal r →
  ∃ chart n,
    r !! "chart_data" = Some chart ∧
    js_length chart = Some n ∧ (n ≤ 24)%nat ∧
    (∀ points, sparkline token = VArr points →
               chart = VArr (last_n 24 points)) ∧
    (nullish (sparkline token) = true → chart = VArr []).
Proof.
  intros Hr.
  apply formatTokenDetails_inv in Hr as (_ & symbol & sliced & _ & Hc & ->).
  assert ((list_to_map (detail_fields token symbol sliced) : record)
            !! "chart_data" = Some (js_or sliced (VArr []))) as Hlookup.
  { apply detail_lookup. unfold detail_fields.
    do 4 apply list_elem_of_further. apply elem_of_app. right.
    apply list_elem_of_here. }
  unfold sliced_sparkline in Hc.
  apply then_opt_slice_Normal in Hc
    as [[Hnull ->]|[(l & Hl & ->)|(s & Hs & ->)]].
  - exists (VArr []), 0. rewrite Hlookup.
    split; [done|]. split; [done|]. split; [lia|]. split; [|done].
    intros points Hp. rewrite Hp in Hnull. discriminate Hnull.
  - exists (VArr (last_n 24 l)), (length (last_n 24 l)). rewrite Hlookup.
    split; [done|]. split; [done|].
    split; [rewrite length_last_n; lia|]. split.
    + intros points Hp. rewrite Hl in Hp. by injection Hp as ->.
    + intros Hnull. rewrite Hl in Hnull. discriminate Hnull.
  - rewrite Hlookup. unfold js_or. cbn [truthy VStr].
    destruct (nonempty (string_slice (-24) s)).
    + exists (VStr (string_slice (-24) s)),
        (String.length (string_slice (-24) s)).
      split; [done|]. split; [done|].
      split; [apply length_string_slice_24|]. split.
      * intros points Hp. rewrite Hs in Hp. discriminate Hp.
      * intros Hnull. rewrite Hs in Hnull. discriminate Hnull.
    + exists (VArr []), 0.
      split; [done|]. split; [done|]. split; [lia|]. split.
      * intros points Hp. rewrite Hs in Hp. discriminate Hp.
      * done.
Qed.

(** C10, as amended.  The defaults of both normalisers are chosen by
    truthiness, not by absence.  Whenever a normaliser returns, a field read
    with a plain [||] is the upstream value when that value is truthy and
    the default otherwise, so that an upstream [0], [""], [null] or [false]
    is replaced exactly as a missing field is; a falsy sparkline gives the
    empty [chart_data], and, when upper-casing the empty string gives the
    empty string, a falsy symbol gives ["N/A"].  But the two fields that
    call a method before [||] do not take every falsy value: a symbol that
    is neither absent, [null] nor a string (so also [0], [false], [NaN])
    makes both normalisers throw, and so does, in the detail normaliser, a
    sparkline that is neither absent, [null], a string nor an array.  On
    every other token that is neither [null] nor [undefined] the
    normalisers return. *)
Theorem C10_defaults_test_truthiness (token : value) :
  (∀ r : record,
     formatAiAgentToken token = Normal r →
     ∀ p d, (p, d) ∈ summary_defaults →
       r !! prop_name p =
         Some (if truthy (member token p) then member token p else d)) ∧
  (∀ r : record,
     formatTokenDetails token = Normal r →
     (∀ k ps d, (k, ps, d) ∈ detail_defaults →
        r !! k = Some (if truthy (path token ps) then path token ps else d)) ∧
     r !! "image" =
       Some (VImage (js_or (path token [P_image; P_thumb]) (VStr ""))
                    (js_or (path token [P_image; P_small]) (VStr ""))
                    (js_or (path token [P_image; P_large]) (VStr ""))) ∧
     (truthy (sparkline token) = false →
      r !! "chart_data" = Some (VArr []))) ∧
  (toUpperCase "" = "" →
   truthy (member token P_symbol) = false →
   ∀ r : record,
     formatAiAgentToken token = Normal r ∨ formatTokenDetails token = Normal r →
     r !! "symbol" = Some (VStr "N/A")) ∧
  (nullish token = false →
   nullish (member token P_symbol) = false →
   is_string (member token P_symbol) = false →
   formatAiAgentToken token = Throw TypeError ∧
   formatTokenDetails token = Throw TypeError) ∧
  (nullish (sparkline token) = false →
   is_string (sparkline token) = false →
   is_array (sparkline token) = false →
   formatTokenDetails token = Throw TypeError) ∧
  (nullish token = false →
   nullish (member token P_symbol) = true
   ∨ is_string (member token P_symbol) = true →
   (∃ r : record, formatAiAgentToken token = Normal r) ∧
   (nullish (sparkline token) = true ∨ is_string (sparkline token) = true
    ∨ is_array (sparkline token) = true →
    ∃ r : record, formatTokenDetails token = Normal r)).
Proof.
  split; [|split; [|split; [|split; [|split]]]].
  - intros r Hr p d Hin.
    apply formatAiAgentToken_inv in Hr as (_ & symbol & _ & ->).
    by apply summary_lookup, summary_default_field.
  - intros r Hr.
    apply formatTokenDetails_inv in Hr as (_ & symbol & chart & _ & Hc & ->).
    split; [|split].
    + intros k ps d Hin. by apply detail_lookup, detail_default_field.
    + apply detail_image.
    + intros Hfalsy. rewrite detail_chart. f_equal.
      by apply (sliced_sparkline_falsy token chart).
  - intros Hup Hfalsy r [Hr|Hr].
    + apply formatAiAgentToken_inv in Hr as (_ & symbol & Hs & ->).
      rewrite summary_symbol. f_equal.
      by apply (upper_symbol_falsy token symbol).
    + apply formatTokenDetails_inv in Hr
        as (_ & symbol & chart & Hs & _ & ->).
      rewrite detail_symbol. f_equal.
      by apply (upper_symbol_falsy token symbol).
  - intros Htoken Hnn Hns.
    destruct (upper_symbol_cases token)
      as [[Hnull _]|[(s & Hstr & _)|(_ & _ & Hu)]].
    + rewrite Hnull in Hnn. discriminate Hnn.
    + rewrite Hstr in Hns. discriminate Hns.
    + split.
      * by apply formatAiAgentToken_throws.
      * by apply formatTokenDetails_throws_symbol.
  - intros Hnn Hns Hna.
    assert (nullish token = false) as Htoken.
    { destruct (nullish token) eqn:E; [|done].
      rewrite (sparkline_of_nullish token E) in Hnn. discriminate Hnn. }
    destruct (sliced_sparkline_cases token)
      as [[Hnull _]|[(l & Hl & _)|[(s & Hstr & _)|(_ & _ & _ & Hc)]]].
    + rewrite Hnull in Hnn. discriminate Hnn.
    + rewrite Hl in Hna. discriminate Hna.
    + rewrite Hstr in Hns. discriminate Hns.
    + destruct (upper_symbol_cases token)
        as [[_ Hu]|[(s & _ & Hu)|(_ & _ & Hu)]].
      * by apply (formatTokenDetails_throws_chart token VUndef).
      * by apply (formatTokenDetails_throws_chart token
                    (VStr (toUpperCase s))).
      * by apply formatTokenDetails_throws_symbol.
  - intros Htoken Hsym.
    assert (∃ symbol, upper_symbol token = Normal symbol) as [symbol Hs].
    { destruct (upper_symbol_cases token)
        as [[_ Hu]|[(s & _ & Hu)|(Hnn & Hns & _)]];
        [by eexists|by eexists|].
      destruct Hsym as [Hsym|Hsym]; congruence. }
    split.
    + eexists. by apply (formatAiAgentToken_returns token symbol).
    + intros Hsp.
      assert (∃ chart, sliced_sparkline token = Normal chart) as [chart Hc].
      { destruct (sliced_sparkline_cases token)
          as [[_ Hu]|[(l & _ & Hu)|[(s & _ & Hu)|(Hnn & Hns & Hna & _)]]];
          [by eexists|by eexists|by eexists|].
        destruct Hsp as [Hsp|[Hsp|Hsp]]; congruence. }
      eexists. by apply (formatTokenDetails_returns token symbol chart).
Qed.

End WithRuntime.

End Normalisation.

(** ** Facts about the operations *)

Module OperationFacts.
Import JS TokenService Shapes JSFacts NormaliserFacts.

Section WithUpstream.
Context `{Runtime} `{Upstream}.

Lemma new_events_app (s s' : state) (evs : list event) :
  st_log s' = st_log s ++ evs → new_events s s' = evs.
Proof. unfold new_events. intros ->. by rewrite drop_app_length. Qed.

(** *** Templates *)

(** A template that renders has every piece render. *)
Lemma render_pieces token t text :
  render token t = Normal text →
  ∀ x, x ∈ t → ∃ sx, render_piece token x = Normal sx.
Proof.
  revert text. induction t as [|y t IH]; intros text Hr x Hx.
  - by apply elem_of_nil in Hx.
  - cbn [render] in Hr.
    destruct (render_piece token y) as [sy|e] eqn:Ey; [|discriminate Hr].
    destruct (render token t) as [st|e] eqn:Et; [|discriminate Hr].
    apply elem_of_cons in Hx as [->|Hx]; [by exists sy|].
    by apply (IH st).
Qed.

(** The prompt interpolates the name, so the message of the [catch] block
    renders whenever the prompt does. *)
Lemma failure_message_renders token content :
  render token user_content = Normal content →
  ∃ message, render token failure_message = Normal message.
Proof.
  intros Hr.
  destruct (render_pieces _ _ _ Hr (Interp P_name)) as [name Hname].
  { unfold user_content. apply list_elem_of_further, list_elem_of_here. }
  unfold failure_message. cbn [render]. rewrite Hname. cbn. by eexists.
Qed.

(** *** The generator *)

(** The generator returns the content of the first choice when the call
    gives a response that has one. *)
Lemma getAiAnalysis_content token s content response w c :
  render token user_content = Normal content →
  openai_create (chat_request content) (st_world s) = (Normal response, w) →
  first_content response = Normal c →
  getAiAnalysis token s =
    (Normal c,
     {| st_world := w;
        st_log := st_log s ++ [OpenAICreate (chat_request content)] |}).
Proof.
  intros Hr Hc Hf.
  unfold getAiAnalysis, try_catch, mbind, M_bind, lift, await_openai_create.
  by rewrite Hr, Hc, Hf.
Qed.

(** The generator falls back when the call rejects. *)
Lemma getAiAnalysis_rejected token s content e w :
  render token user_content = Normal content →
  openai_create (chat_request content) (st_world s) = (Throw e, w) →
  ∃ message,
    getAiAnalysis token s =
      (Normal (VStr "AI analysis unavailable."),
       {| st_world := w;
          st_log := st_log s ++ [ OpenAICreate (chat_request content);
                                  ConsoleError message e ] |}).
Proof.
  intros Hr Hc. destruct (failure_message_renders _ _ Hr) as [message Hm].
  exists message.
  unfold getAiAnalysis, try_catch, mbind, M_bind, lift, await_openai_create,
    console_error, emit, mret, M_ret.
  rewrite Hr, Hc, Hm. cbn. by rewrite <- app_assoc.
Qed.

(** The generator falls back when the response has no first choice with a
    message to read. *)
Lemma getAiAnalysis_malformed token s content response w e :
  render token user_content = Normal content →
  openai_create (chat_request content) (st_world s) = (Normal response, w) →
  first_content response = Throw e →
  ∃ message,
    getAiAnalysis token s =
      (Normal (VStr "AI analysis unavailable."),
       {| st_world := w;
          st_log := st_log s ++ [ OpenAICreate (chat_request content);
                                  ConsoleError message e ] |}).
Proof.
  intros Hr Hc Hf. destruct (failure_message_renders _ _ Hr) as [message Hm].
  exists message.
  unfold getAiAnalysis, try_catch, mbind, M_bind, lift, await_openai_create,
    console_error, emit, mret, M_ret.
  rewrite Hr, Hc, Hf, Hm. cbn. by rewrite <- app_assoc.
Qed.

(** The line of the [catch] block starts with its fixed text. *)
Lemma failure_message_text token message :
  render token failure_message = Normal message →
  ∃ name, message = "AI analysis failed for " +:+ name +:+ ":".
Proof.
  unfold failure_message. cbn [render render_piece].
  destruct (to_string (rget token P_name)) as [name|e]; [|discriminate].
  cbn. intros Hm. apply Normal_inj in Hm. subst message. by exists name.
Qed.

(** A run of the generator that returns leaves an event of its own in the
    log. *)
Lemma getAiAnalysis_observable token s v s' :
  getAiAnalysis token s = (Normal v, s') →
  ∃ ev, ev ∈ new_events s s' ∧ generator_event token ev.
Proof.
  unfold getAiAnalysis, try_catch, mbind, M_bind, lift, await_openai_create,
    console_error, emit, mret, M_ret, generator_event.
  destruct (render token user_content) as [content|e0] eqn:Hr.
  - destruct (openai_create (chat_request content) (st_world s))
      as [[response|e1] w] eqn:Hc.
    + destruct (first_content response) as [c|e2] eqn:Hf.
      * intros [= <- <-]. exists (OpenAICreate (chat_request content)).
        split; [|left; by eexists].
        erewrite new_events_app; [|done]. apply list_elem_of_here.
      * destruct (render token failure_message) as [message|e3] eqn:Hm;
          [|discriminate].
        cbn. intros [= <- <-]. exists (OpenAICreate (chat_request content)).
        split; [|left; by eexists].
        erewrite new_events_app; [|by rewrite <- app_assoc].
        apply list_elem_of_here.
    + destruct (render token failure_message) as [message|e3] eqn:Hm;
        [|discriminate].
      cbn. intros [= <- <-]. exists (OpenAICreate (chat_request content)).
      split; [|left; by eexists].
      erewrite new_events_app; [|by rewrite <- app_assoc].
      apply list_elem_of_here.
  - destruct (render token failure_message) as [message|e3] eqn:Hm;
      [|discriminate].
    cbn. intros [= <- <-]. exists (ConsoleError message e0).
    split; [|right; by eexists _, _].
    erewrite new_events_app; [|done]. apply list_elem_of_here.
Qed.

(** The generator returns whenever the message of its [catch] block
    renders, that is, whenever the name of the token converts to a string. *)
Lemma getAiAnalysis_returns token s message :
  render token failure_message = Normal message →
  ∃ v s', getAiAnalysis token s = (Normal v, s').
Proof.
  intros Hm.
  unfold getAiAnalysis, try_catch, mbind, M_bind, lift, await_openai_create,
    console_error, emit, mret, M_ret.
  rewrite Hm.
  destruct (render token user_content) as [content|e0]; [|by eexists _, _].
  destruct (openai_create (chat_request content) (st_world s))
    as [[response|e1] w]; [|by eexists _, _].
  destruct (first_content response) as [c|e2]; by eexists _, _.
Qed.

(** *** The detail operation *)

(** The detail fetch never throws, and returns a token only as the
    normalisation of what the provider answered. *)
Lemma fetchTokenDetails_Some tokenId s token s1 :
  fetchTokenDetails tokenId s = (Normal (Some token), s1) →
  ∃ data w,
    axios_get (details_url tokenId) details_params (st_world s)
      = (Normal data, w) ∧
    formatTokenDetails (VJson data) = Normal token ∧
    s1 = {| st_world := w;
            st_log := st_log s ++
                        [AxiosGet (details_url tokenId) details_params] |}.
Proof.
  unfold fetchTokenDetails, try_catch, mbind, M_bind, lift, await_axios_get,
    console_error, emit, mret, M_ret.
  destruct (axios_get (details_url tokenId) details_params (st_world s))
    as [[data|e] w] eqn:Ha; [|discriminate].
  destruct (formatTokenDetails (VJson data)) as [t|e] eqn:Hf; [|discriminate].
  intros [= <- <-]. by exists data, w.
Qed.

Lemma fetchTokenDetails_returns tokenId s data w token :
  axios_get (details_url tokenId) details_params (st_world s)
    = (Normal data, w) →
  formatTokenDetails (VJson data) = Normal token →
  fetchTokenDetails tokenId s =
    (Normal (Some token),
     {| st_world := w;
        st_log := st_log s ++
                    [AxiosGet (details_url tokenId) details_params] |}).
Proof.
  intros Ha Hf.
  unfold fetchTokenDetails, try_catch, mbind, M_bind, lift, await_axios_get.
  by rewrite Ha, Hf.
Qed.

(** The detail operation is the fetch followed, on a token, by the
    generator. *)
Lemma getTokenDetails_run tokenId s :
  getTokenDetails tokenId s =
    match fetchTokenDetails tokenId s with
    | (Normal None, s1) => (Normal None, s1)
    | (Normal (Some token), s1) =>
        match getAiAnalysis token s1 with
        | (Normal aiAnalysis, s2) =>
            (Normal
               (Some (<["ai_insight" :=
                         js_or aiAnalysis (VStr "No AI insight available.")]>
                        token)), s2)
        | (Throw e, s2) => (Throw e, s2)
        end
    | (Throw e, s1) => (Throw e, s1)
    end.
Proof.
  unfold getTokenDetails, mbind, M_bind.
  destruct (fetchTokenDetails tokenId s) as [[[token|]|e] s1]; [|done|done].
  by destruct (getAiAnalysis token s1) as [[ai|e] s2].
Qed.

(** A normalised detail has no [ai_insight] of its own. *)
Lemma detail_has_no_insight token (r : record) :
  formatTokenDetails token = Normal r → r !! "ai_insight" = None.
Proof.
  intros Hr.
  apply formatTokenDetails_inv in Hr as (_ & symbol & chart & _ & _ & ->).
  apply not_elem_of_list_to_map_1. rewrite detail_fields_keys.
  apply (bool_decide_unpack _). by vm_compute.
Qed.

(** How the detail operation answers, given how the generator does. *)
Lemma answers_with_generated tokenId s token s1 v s2 :
  fetchTokenDetails tokenId s = (Normal (Some token), s1) →
  getAiAnalysis token s1 = (Normal v, s2) →
  answers_with tokenId s (js_or v (VStr "No AI insight available.")).
Proof.
  intros Hf Hg. unfold answers_with.
  eexists _, s2. rewrite getTokenDetails_run, Hf, Hg.
  split; [done|]. apply lookup_insert_eq.
Qed.

(** After a successful fetch the detail operation returns a record whenever
    the name of the token converts to a string. *)
Lemma getTokenDetails_returns tokenId s token s1 message :
  fetchTokenDetails tokenId s = (Normal (Some token), s1) →
  render token failure_message = Normal message →
  ∃ r s2, getTokenDetails tokenId s = (Normal (Some r), s2).
Proof.
  intros Hf Hm.
  destruct (getAiAnalysis_returns token s1 message Hm) as (v & s2 & Hg).
  eexists _, s2. by rewrite getTokenDetails_run, Hf, Hg.
Qed.

End WithUpstream.

End OperationFacts.

(** ** The operations and the commentary *)

Module Operations.
Import JS TokenService Shapes JSFacts NormaliserFacts OperationFacts.

Section WithUpstream.
Context `{Runtime} `{Upstream}.

(** C1.  For every token identifier, when the market-data call of the
    detail operation rejects, [getTokenDetails] returns [null], and the run
    consists of that call and of the line logged by the fetch alone: it
    holds no event of the generator, neither a call to the completion
    endpoint nor the line of its [catch] block, so [getAiAnalysis] is not
    invoked. *)
Theorem C1_failed_fetch_returns_null_without_commentary
    (tokenId : string) (s : state) (e : exn) (w : world) :
  axios_get (details_url tokenId) details_params (st_world s) = (Throw e, w) →
  ∃ s',
    getTokenDetails tokenId s = (Normal None, s') ∧
    st_world s' = w ∧
    new_events s s' =
      [ AxiosGet (details_url tokenId) details_params;
        ConsoleError ("Error fetching details for " +:+ tokenId +:+ ":") e ] ∧
    (∀ token ev, ev ∈ new_events s s' → ¬ generator_event token ev).
Proof.
  intros Ha.
  assert (fetchTokenDetails tokenId s =
            (Normal None,
             {| st_world := w;
                st_log := st_log s ++
                  [ AxiosGet (details_url tokenId) details_params;
                    ConsoleError
                      ("Error fetching details for " +:+ tokenId +:+ ":") e ]
             |})) as Hf.
  { unfold fetchTokenDetails, try_catch, mbind, M_bind, lift, await_axios_get,
      console_error, emit, mret, M_ret.
    rewrite Ha. cbn. by rewrite <- app_assoc. }
  eexists. rewrite getTokenDetails_run, Hf.
  split; [done|]. split; [done|].
  erewrite new_events_app; [|done]. split; [done|].
  intros token ev Hin [(request & ->)|(message & e' & -> & Hm)].
  - apply elem_of_cons in Hin as [Hin|Hin]; [discriminate Hin|].
    apply list_elem_of_singleton in Hin. discriminate Hin.
  - apply failure_message_text in Hm as (name & ->).
    apply elem_of_cons in Hin as [Hin|Hin]; [discriminate Hin|].
    apply list_elem_of_singleton in Hin. discriminate Hin.
Qed.

(** C3.  Whatever the listing call does, the token-list operation returns
    normally; it returns the empty sequence when the call rejects and when
    the answer cannot be mapped (it is no array, or an element makes the
    normaliser throw). *)
Theorem C3_token_list_never_throws (s : state) :
  (∃ tokens s', getAiAgentTokens s = (Normal tokens, s')) ∧
  (∀ e w,
     axios_get markets_url markets_params (st_world s) = (Throw e, w) →
     (getAiAgentTokens s).1 = Normal []) ∧
  (∀ data w e,
     axios_get markets_url markets_params (st_world s) = (Normal data, w) →
     call_map data formatAiAgentToken = Throw e →
     (getAiAgentTokens s).1 = Normal []).
Proof.
  unfold getAiAgentTokens, fetchAiAgentTokens, try_catch, mbind, M_bind, lift,
    await_axios_get, console_error, emit, mret, M_ret.
  destruct (axios_get markets_url markets_params (st_world s))
    as [[data|e] w] eqn:Ha.
  - destruct (call_map data formatAiAgentToken) as [tokens|e] eqn:Hm.
    + split; [by eexists _, _|]. split; [done|].
      intros data' w' e' Heq Hm'. injection Heq as <- _.
      rewrite Hm in Hm'. discriminate Hm'.
    + by split; [eexists _, _|].
  - split; [by eexists _, _|]. split; [done|]. by intros data' w' e' Heq.
Qed.

(** C9.  When the detail fetch succeeds, whatever the detail operation
    returns is the normalised [TokenDetail] with one more key, [ai_insight]:
    the normalised token has no such key, and under every other key the
    returned record holds what the normalised token holds.  The operation
    does return whenever the name of the token converts to a string. *)
Theorem C9_insight_is_the_only_difference
    (tokenId : string) (s s1 : state) (token : record) :
  fetchTokenDetails tokenId s = (Normal (Some token), s1) →
  (∀ (result : option record) (s2 : state),
     getTokenDetails tokenId s = (Normal result, s2) →
     ∃ (r : record) (insight : value),
       result = Some r ∧
       r = <["ai_insight" := insight]> token ∧
       token !! "ai_insight" = None ∧
       dom r = dom token ∪ {["ai_insight"]} ∧
       (∀ k, k ≠ "ai_insight" → r !! k = token !! k)) ∧
  (∀ message,
     render token failure_message = Normal message →
     ∃ (r : record) (s2 : state),
       getTokenDetails tokenId s = (Normal (Some r), s2)).
Proof.
  intros Hf. split.
  - intros result s2 Hg. rewrite getTokenDetails_run, Hf in Hg.
    destruct (getAiAnalysis token s1) as [[ai|e] s2'] eqn:Ha;
      [|discriminate].
    apply pair_equal_spec in Hg as [Hg _]. apply Normal_inj in Hg.
    subst result.
    eexists _, _. split; [done|]. split; [done|].
    apply fetchTokenDetails_Some in Hf as (data & w & _ & Hfmt & _).
    split; [by apply (detail_has_no_insight (VJson data))|].
    split.
    + rewrite dom_insert_L. apply union_comm_L.
    + intros k Hk. by rewrite lookup_insert_ne.
  - intros message Hm. by apply (getTokenDetails_returns _ _ token s1 message).
Qed.

(** C2, as amended.  For a successfully fetched token whose prompt can be
    built, [ai_insight] is ["AI analysis unavailable."] whenever the
    text-generation call rejects or its response has no first choice with a
    message to read (the generator's own catch); it is
    ["No AI insight available."] whenever the generator returns a falsy
    content without error; otherwise it is the generated content itself.
    The two fallback texts differ. *)
Theorem C2_fallback_texts_by_layer
    (tokenId : string) (s s1 : state) (token : record) (content : string) :
  fetchTokenDetails tokenId s = (Normal (Some token), s1) →
  render token user_content = Normal content →
  (∀ e w,
     openai_create (chat_request content) (st_world s1) = (Throw e, w) →
     answers_with tokenId s generator_fallback) ∧
  (∀ response w e,
     openai_create (chat_request content) (st_world s1)
       = (Normal response, w) →
     first_content response = Throw e →
     answers_with tokenId s generator_fallback) ∧
  (∀ response w c,
     openai_create (chat_request content) (st_world s1)
       = (Normal response, w) →
     first_content response = Normal c →
     truthy c = false →
     answers_with tokenId s insight_fallback) ∧
  (∀ response w c,
     openai_create (chat_request content) (st_world s1)
       = (Normal response, w) →
     first_content response = Normal c →
     truthy c = true →
     answers_with tokenId s c) ∧
  generator_fallback ≠ insight_fallback.
Proof.
  intros Hf Hr. split; [|split; [|split; [|split]]].
  - intros e w Hc.
    destruct (getAiAnalysis_rejected _ _ _ _ _ Hr Hc) as [message Hg].
    apply (answers_with_generated _ _ _ _ _ _ Hf Hg).
  - intros response w e Hc Hfirst.
    destruct (getAiAnalysis_malformed _ _ _ _ _ _ Hr Hc Hfirst)
      as [message Hg].
    apply (answers_with_generated _ _ _ _ _ _ Hf Hg).
  - intros response w c Hc Hfirst Hfalsy.
    pose proof (getAiAnalysis_content _ _ _ _ _ _ Hr Hc Hfirst) as Hg.
    pose proof (answers_with_generated _ _ _ _ _ _ Hf Hg) as Ha.
    by rewrite (js_or_falsy _ _ Hfalsy) in Ha.
  - intros response w c Hc Hfirst Htruthy.
    pose proof (getAiAnalysis_content _ _ _ _ _ _ Hr Hc Hfirst) as Hg.
    pose proof (answers_with_generated _ _ _ _ _ _ Hf Hg) as Ha.
    by rewrite (js_or_truthy _ _ Htruthy) in Ha.
  - done.
Qed.

(** The prompt reads two fields that no [TokenDetail] has, [high_24h] and
    [low_24h], and they render as [undefined]; every other field that the
    prompt reads is a key of the [TokenDetail]. *)
Lemma prompt_reads_fields_the_detail_lacks (token : value) (r : record) :
  formatTokenDetails token = Normal r →
  P_high_24h ∈ interpolated user_content ∧
  P_low_24h ∈ interpolated user_content ∧
  r !! "high_24h" = None ∧
  r !! "low_24h" = None ∧
  render_piece r (Interp P_high_24h) = Normal "undefined" ∧
  render_piece r (Interp P_low_24h) = Normal "undefined" ∧
  (∀ p, p ∈ interpolated user_content →
        p ≠ P_high_24h → p ≠ P_low_24h → prop_name p ∈ detail_keys).
Proof.
  intros Hr.
  apply formatTokenDetails_inv in Hr as (_ & symbol & chart & _ & _ & ->).
  assert (∀ k, k ∉ detail_keys →
            (list_to_map (detail_fields token symbol chart) : record) !! k
              = None) as Hnone.
  { intros k Hk. apply not_elem_of_list_to_map_1.
    by rewrite detail_fields_keys. }
  assert ("high_24h" ∉ detail_keys) as Hhigh
    by (apply (bool_decide_unpack _); by vm_compute).
  assert ("low_24h" ∉ detail_keys) as Hlow
    by (apply (bool_decide_unpack _); by vm_compute).
  split; [apply (bool_decide_unpack _); by vm_compute|].
  split; [apply (bool_decide_unpack _); by vm_compute|].
  split; [by apply Hnone|]. split; [by apply Hnone|].
  split; [|split].
  - unfold render_piece, rget. cbn [prop_name]. by rewrite (Hnone _ Hhigh).
  - unfold render_piece, rget. cbn [prop_name]. by rewrite (Hnone _ Hlow).
  - intros p Hp Hh Hl.
    change (interpolated user_content) with
      [ P_name; P_symbol; P_current_price; P_market_cap; P_market_cap_rank;
        P_total_volume; P_high_24h; P_low_24h; P_price_change_24h;
        P_price_change_percentage_24h; P_ath; P_ath_change_percentage; P_atl;
        P_atl_change_percentage; P_circulating_supply; P_total_supply;
        P_chart_data ] in Hp.
    repeat (apply elem_of_cons in Hp as [->|Hp];
            [first [done | apply (bool_decide_unpack _); by vm_compute]|]).
    by apply elem_of_nil in Hp.
Qed.

End WithUpstream.

End Operations.

(** ** The statements at concrete inputs *)

Module Examples.
Import JS TokenService Shapes Stub.
Import JSFacts NormaliserFacts NormaliserCases OperationFacts.
Import Normalisation Operations.

(** *** The stubbed providers at work *)

Lemma bitcoin_normalised :
  formatTokenDetails (VJson bitcoin) = Normal bitcoin_detail.
Proof. by apply formatTokenDetails_returns. Qed.

Lemma bitcoin_fetched (w : canned) :
  detail w = Normal bitcoin →
  fetchTokenDetails "bitcoin" (start w)
    = (Normal (Some bitcoin_detail), fetched w).
Proof.
  intros Hd.
  apply (fetchTokenDetails_returns "bitcoin" (start w) bitcoin w).
  - cbn. by rewrite Hd.
  - apply bitcoin_normalised.
Qed.

Lemma bitcoin_prompt_rendered :
  render bitcoin_detail user_content = Normal bitcoin_prompt.
Proof. by vm_compute. Qed.

(** With a generator that answers [text], the detail operation answers
    [text || 'No AI insight available.']. *)
Lemma bitcoin_run (w : canned) (text : string) :
  detail w = Normal bitcoin →
  chat w = Normal (completion_with text) →
  getTokenDetails "bitcoin" (start w) =
    (Normal (Some (<["ai_insight" := js_or (VStr text) insight_fallback]>
                     bitcoin_detail)),
     generated w).
Proof.
  intros Hd Hc.
  rewrite getTokenDetails_run, (bitcoin_fetched w Hd).
  rewrite (getAiAnalysis_content bitcoin_detail (fetched w) bitcoin_prompt
             (completion_with text) w (VStr text)).
  - reflexivity.
  - apply bitcoin_prompt_rendered.
  - cbn. by rewrite Hc.
  - reflexivity.
Qed.

Lemma bitcoin_answered (w : canned) (text : string) :
  detail w = Normal bitcoin →
  chat w = Normal (completion_with text) →
  answers_with "bitcoin" (start w) (js_or (VStr text) insight_fallback).
Proof.
  intros Hd Hc. eexists _, _. split; [by apply bitcoin_run|].
  apply lookup_insert_eq.
Qed.

(** The end-to-end example: a stubbed provider that answers with [bitcoin]
    and a stubbed generator that answers ["Hold."]. *)
Example end_to_end :
  ∃ r s',
    TokenController.getTokenDetails "bitcoin" (start all_up)
      = (Normal (Some r), s') ∧
    r !! "symbol" = Some (VStr "BTC") ∧
    r !! "current_price" = Some (VNum 42000) ∧
    r !! "market_cap" = Some (VNum 0) ∧
    r !! "ai_insight" = Some (VStr "Hold.").
Proof.
  eexists _, _. split.
  - apply (bitcoin_run all_up "Hold."); reflexivity.
  - repeat split; reflexivity.
Qed.

(** *** C1 *)

(** C1 at a stubbed provider whose detail endpoint is down. *)
Lemma C1_witness :
  axios_get (details_url "bitcoin") details_params
      (st_world (start detail_down))
    = (Throw (Rejected "Network Error"), detail_down) ∧
  ∃ s',
    getTokenDetails "bitcoin" (start detail_down) = (Normal None, s') ∧
    st_world s' = detail_down ∧
    new_events (start detail_down) s' =
      [ AxiosGet (details_url "bitcoin") details_params;
        ConsoleError "Error fetching details for bitcoin:"
          (Rejected "Network Error") ] ∧
    (∀ token ev, ev ∈ new_events (start detail_down) s' →
                 ¬ generator_event token ev).
Proof.
  split; [reflexivity|].
  apply (C1_failed_fetch_returns_null_without_commentary
           "bitcoin" (start detail_down)).
  reflexivity.
Defined.

(** *** C2 *)

(** C2 at three stubbed generators: one that rejects, one that answers with
    an empty text, one that answers ["Hold."]. *)
Lemma C2_witness :
  (fetchTokenDetails "bitcoin" (start chat_down)
     = (Normal (Some bitcoin_detail), fetched chat_down) ∧
   render bitcoin_detail user_content = Normal bitcoin_prompt ∧
   answers_with "bitcoin" (start chat_down) generator_fallback) ∧
  (fetchTokenDetails "bitcoin" (start chat_empty)
     = (Normal (Some bitcoin_detail), fetched chat_empty) ∧
   answers_with "bitcoin" (start chat_empty) insight_fallback) ∧
  (fetchTokenDetails "bitcoin" (start all_up)
     = (Normal (Some bitcoin_detail), fetched all_up) ∧
   answers_with "bitcoin" (start all_up) (VStr "Hold.")).
Proof.
  pose proof bitcoin_prompt_rendered as Hr.
  split; [|split].
  - pose proof (bitcoin_fetched chat_down eq_refl) as Hf.
    split; [exact Hf|]. split; [exact Hr|].
    destruct (C2_fallback_texts_by_layer _ _ _ _ _ Hf Hr) as (Hthrow & _).
    apply (Hthrow (Rejected "Network Error") chat_down). reflexivity.
  - pose proof (bitcoin_fetched chat_empty eq_refl) as Hf.
    split; [exact Hf|].
    destruct (C2_fallback_texts_by_layer _ _ _ _ _ Hf Hr)
      as (_ & _ & Hfalsy & _).
    apply (Hfalsy (completion_with "") chat_empty (VStr ""));
      reflexivity.
  - pose proof (bitcoin_fetched all_up eq_refl) as Hf.
    split; [exact Hf|].
    destruct (C2_fallback_texts_by_layer _ _ _ _ _ Hf Hr)
      as (_ & _ & _ & Htruthy & _).
    apply (Htruthy (completion_with "Hold.") all_up (VStr "Hold."));
      reflexivity.
Defined.

(** C2 as stated fails: the stubbed generator answers, without any error,
    with the very text of the generator's fallback; [ai_insight] is that
    text although no text-generation call throws. *)
Lemma C2_counterexample :
  ¬ (answers_with "bitcoin" (start chat_echoes_fallback) generator_fallback →
     ∃ request e w,
       openai_create request chat_echoes_fallback = (Throw e, w)).
Proof.
  intros Hclaim. destruct Hclaim as (request & e & w & Hthrow).
  - apply (bitcoin_answered chat_echoes_fallback "AI analysis unavailable.");
      reflexivity.
  - discriminate Hthrow.
Qed.

(** *** C3 *)

(** C3 at a listing endpoint that is down, at one that answers with an
    object, and at one whose array has a [null] element. *)
Lemma C3_witness :
  (axios_get markets_url markets_params (st_world (start listing_down))
     = (Throw (Rejected "Network Error"), listing_down) ∧
   (getAiAgentTokens (start listing_down)).1 = Normal []) ∧
  (call_map (JObj [ ("error", JStr "rate limited") ]) formatAiAgentToken
     = Throw TypeError ∧
   (getAiAgentTokens (start listing_no_array)).1 = Normal []) ∧
  (call_map (JArr [ partial_summary; JNull ]) formatAiAgentToken
     = Throw TypeError ∧
   (getAiAgentTokens (start listing_null_element)).1 = Normal []) ∧
  (∃ tokens s', getAiAgentTokens (start all_up) = (Normal tokens, s')).
Proof.
  split; [|split; [|split]].
  - split; [reflexivity|].
    destruct (C3_token_list_never_throws (start listing_down))
      as (_ & Hrejected & _).
    apply (Hrejected (Rejected "Network Error") listing_down). reflexivity.
  - assert (call_map (JObj [ ("error", JStr "rate limited") ])
              formatAiAgentToken = Throw TypeError) as Hm by reflexivity.
    split; [exact Hm|].
    destruct (C3_token_list_never_throws (start listing_no_array))
      as (_ & _ & Hunmapped).
    apply (Hunmapped (JObj [ ("error", JStr "rate limited") ])
             listing_no_array TypeError); [reflexivity|exact Hm].
  - assert (call_map (JArr [ partial_summary; JNull ]) formatAiAgentToken
              = Throw TypeError) as Hm.
    { unfold call_map. cbn [mapM].
      rewrite (formatAiAgentToken_returns (VJson partial_summary)
                 (VStr "FET")) by reflexivity.
      reflexivity. }
    split; [exact Hm|].
    destruct (C3_token_list_never_throws (start listing_null_element))
      as (_ & _ & Hunmapped).
    apply (Hunmapped (JArr [ partial_summary; JNull ])
             listing_null_element TypeError); [reflexivity|exact Hm].
  - destruct (C3_token_list_never_throws (start all_up)) as (Hreturns & _).
    exact Hreturns.
Defined.

(** *** C4 *)

Lemma partial_summary_normalised :
  formatAiAgentToken (VJson partial_summary) = Normal partial_normalised.
Proof. by apply formatAiAgentToken_returns. Qed.

Lemma anonymous_summary_normalised :
  formatAiAgentToken (VJson anonymous) = Normal anonymous_normalised.
Proof. by apply formatAiAgentToken_returns. Qed.

Lemma falsy_summary_normalised :
  formatAiAgentToken (VJson falsy_summary) = Normal falsy_normalised.
Proof. by apply formatAiAgentToken_returns. Qed.

Lemma falsy_detail_is_normalised :
  formatTokenDetails (VJson falsy_detail) = Normal falsy_detail_normalised.
Proof. by apply formatTokenDetails_returns. Qed.

Lemma with_sparkline_normalised :
  formatTokenDetails (VJson with_sparkline) = Normal sparkline_detail.
Proof. by apply formatTokenDetails_returns. Qed.




(** *** C5 *)

(** C5 fails on the code: the [TokenDetail] of [bitcoin] has no [high_24h]
    and no [low_24h], the prompt interpolates both, and its line on the 24h
    range reads [undefined] twice. *)
Theorem C5_prompt_prints_undefined_range :
  formatTokenDetails (VJson bitcoin) = Normal bitcoin_detail ∧
  P_high_24h ∈ interpolated user_content ∧
  P_low_24h ∈ interpolated user_content ∧
  bitcoin_detail !! "high_24h" = None ∧
  bitcoin_detail !! "low_24h" = None ∧
  render bitcoin_detail range_line =
    Normal "
      - **24h High/Low**: $undefined / $undefined".
Proof.
  pose proof bitcoin_normalised as Hr. split; [exact Hr|].
  destruct (prompt_reads_fields_the_detail_lacks (VJson bitcoin)
              bitcoin_detail Hr)
    as (Hhigh & Hlow & Hnohigh & Hnolow & Hrhigh & Hrlow & _).
  split; [exact Hhigh|]. split; [exact Hlow|].
  split; [exact Hnohigh|]. split; [exact Hnolow|].
  change range_line with
    [ Lit "
      - **24h High/Low**: $"; Interp P_high_24h; Lit " / $";
      Interp P_low_24h ].
  cbn [render]. rewrite Hrhigh, Hrlow. reflexivity.
Qed.

(** *** C6 *)

(** C6 at a list record with identifier, name and symbol only. *)
Lemma C6_witness :
  formatAiAgentToken (VJson partial_summary) = Normal partial_normalised ∧
  (∀ p, p ∈ summary_numeric →
     ∃ v, partial_normalised !! prop_name p = Some v ∧
          nullish v = false ∧
          (member (VJson partial_summary) p = VUndef → v = VNum 0)) ∧
  partial_normalised !! "total_volume" = Some (VNum 0) ∧
  partial_normalised !! "market_cap_rank" = Some VNull ∧
  partial_normalised !! "max_supply" = Some VNull.
Proof.
  pose proof partial_summary_normalised as Hr. split; [exact Hr|].
  destruct (C6_missing_numeric_fields_are_zero (VJson partial_summary)
              partial_normalised Hr) as [Hnumeric Hnullable].
  split; [exact Hnumeric|]. split; [reflexivity|].
  split.
  - apply (Hnullable P_market_cap_rank); [|reflexivity].
    apply list_elem_of_here.
  - apply (Hnullable P_max_supply); [|reflexivity].
    apply list_elem_of_further, list_elem_of_here.
Defined.

(** *** C7 *)

(** C7, as amended, at a list record and at a detail record. *)
Lemma C7_witness :
  (formatAiAgentToken (VJson partial_summary) = Normal partial_normalised ∧
   symbol_rule (VJson partial_summary) partial_normalised ∧
   partial_normalised !! "symbol" = Some (VStr "FET")) ∧
  (formatTokenDetails (VJson bitcoin) = Normal bitcoin_detail ∧
   symbol_rule (VJson bitcoin) bitcoin_detail ∧
   bitcoin_detail !! "symbol" = Some (VStr "BTC")).
Proof.
  destruct (C7_symbol_upper_cased_or_NA (VJson partial_summary))
    as [Hsummary _].
  destruct (C7_symbol_upper_cased_or_NA (VJson bitcoin)) as [_ Hdetail].
  split.
  - pose proof partial_summary_normalised as Hr. split; [exact Hr|].
    split; [exact (Hsummary _ Hr)|reflexivity].
  - pose proof bitcoin_normalised as Hr. split; [exact Hr|].
    split; [exact (Hdetail _ Hr)|reflexivity].
Defined.

(** C7 as stated fails: a list record whose symbol is the empty string
    normalises to the symbol ["N/A"], not to the upper-cased empty string. *)
Lemma C7_counterexample :
  ¬ (∀ (r : record) (s : string),
       member (VJson falsy_summary) P_symbol = VStr s →
       formatAiAgentToken (VJson falsy_summary) = Normal r →
       r !! "symbol" = Some (VStr (toUpperCase s))).
Proof.
  intros Hclaim.
  pose proof (Hclaim _ "" eq_refl falsy_summary_normalised) as Hsymbol.
  assert (falsy_normalised !! "symbol" = Some (VStr "N/A")) as Hna
    by reflexivity.
  rewrite Hna in Hsymbol. discriminate Hsymbol.
Qed.

(** *** C8 *)

(** C8 at a detail record with a sparkline of thirty points, and at one
    without sparkline. *)
Lemma C8_witness :
  (formatTokenDetails (VJson with_sparkline) = Normal sparkline_detail ∧
   ∃ chart n,
     sparkline_detail !! "chart_data" = Some chart ∧
     js_length chart = Some n ∧ (n ≤ 24)%nat ∧
     chart = VArr (drop 6 thirty_points)) ∧
  (formatTokenDetails (VJson bitcoin) = Normal bitcoin_detail ∧
   bitcoin_detail !! "chart_data" = Some (VArr [])).
Proof.
  split.
  - pose proof with_sparkline_normalised as Hr. split; [exact Hr|].
    destruct (C8_chart_data_last_24_points (VJson with_sparkline)
                sparkline_detail Hr)
      as (chart & n & Hchart & Hlen & Hle & Hlast & _).
    exists chart, n. split; [exact Hchart|]. split; [exact Hlen|].
    split; [exact Hle|]. apply (Hlast thirty_points). reflexivity.
  - pose proof bitcoin_normalised as Hr. split; [exact Hr|].
    destruct (C8_chart_data_last_24_points (VJson bitcoin)
                bitcoin_detail Hr)
      as (chart & n & Hchart & _ & _ & _ & Habsent).
    rewrite Hchart. f_equal. apply Habsent. reflexivity.
Defined.

(** *** C9 *)

(** C9 at stubbed providers that both answer. *)
Lemma C9_witness :
  fetchTokenDetails "bitcoin" (start all_up)
    = (Normal (Some bitcoin_detail), fetched all_up) ∧
  getTokenDetails "bitcoin" (start all_up)
    = (Normal (Some (<["ai_insight" := VStr "Hold."]> bitcoin_detail)),
       generated all_up) ∧
  ∃ (r : record) (insight : value),
    Some (<["ai_insight" := VStr "Hold."]> bitcoin_detail) = Some r ∧
    r = <["ai_insight" := insight]> bitcoin_detail ∧
    bitcoin_detail !! "ai_insight" = None ∧
    dom r = dom bitcoin_detail ∪ {["ai_insight"]} ∧
    (∀ k, k ≠ "ai_insight" → r !! k = bitcoin_detail !! k).
Proof.
  pose proof (bitcoin_fetched all_up eq_refl) as Hf.
  pose proof (bitcoin_run all_up "Hold." eq_refl eq_refl) as Hg.
  split; [exact Hf|]. split; [exact Hg|].
  destruct (C9_insight_is_the_only_difference
              "bitcoin" (start all_up) (fetched all_up) bitcoin_detail Hf)
    as [Hsame _].
  apply (Hsame _ (generated all_up) Hg).
Defined.

(** *** C10 *)

Lemma zero_symbol_is_falsy :
  truthy (member (VJson zero_symbol) P_symbol) = false.
Proof. reflexivity. Qed.

(** C10, as amended, at a list record and at a detail record whose optional
    fields are present but falsy (a rank of [0] becomes [null], an empty
    symbol and an empty timestamp become ["N/A"], a [null] price becomes
    [0]), and at records whose symbol and whose sparkline are the number
    [0], on which the normalisers throw. *)
Lemma C10_witness :
  (toUpperCase "" = "" ∧
   truthy (member (VJson falsy_summary) P_symbol) = false ∧
   formatAiAgentToken (VJson falsy_summary) = Normal falsy_normalised ∧
   falsy_normalised !! "market_cap_rank" = Some VNull ∧
   falsy_normalised !! "symbol" = Some (VStr "N/A") ∧
   falsy_normalised !! "last_updated" = Some (VStr "N/A") ∧
   falsy_normalised !! "current_price" = Some (VNum 0)) ∧
  (formatTokenDetails (VJson falsy_detail) = Normal falsy_detail_normalised ∧
   falsy_detail_normalised !! "market_cap_rank" = Some VNull ∧
   falsy_detail_normalised !! "current_price" = Some (VNum 0) ∧
   falsy_detail_normalised !! "ath_date" = Some (VStr "N/A") ∧
   falsy_detail_normalised !! "chart_data" = Some (VArr [])) ∧
  (truthy (member (VJson zero_symbol) P_symbol) = false ∧
   formatAiAgentToken (VJson zero_symbol) = Throw TypeError ∧
   formatTokenDetails (VJson zero_symbol) = Throw TypeError) ∧
  (truthy (sparkline (VJson zero_sparkline)) = false ∧
   formatTokenDetails (VJson zero_sparkline) = Throw TypeError) ∧
  (∃ r : record, formatAiAgentToken (VJson zero_sparkline) = Normal r).
Proof.
  split; [|split; [|split; [|split]]].
  - destruct (C10_defaults_test_truthiness (VJson falsy_summary))
      as (Hsummary & _ & Hsymbol & _).
    pose proof falsy_summary_normalised as Hr.
    split; [reflexivity|]. split; [reflexivity|]. split; [exact Hr|].
    split; [|split; [|split]].
    + apply (Hsummary _ Hr P_market_cap_rank VNull).
      do 3 apply list_elem_of_further. apply list_elem_of_here.
    + apply (Hsymbol eq_refl eq_refl). by left.
    + apply (Hsummary _ Hr P_last_updated (VStr "N/A")).
      do 16 apply list_elem_of_further. apply list_elem_of_here.
    + apply (Hsummary _ Hr P_current_price (VNum 0)).
      apply list_elem_of_further, list_elem_of_here.
  - destruct (C10_defaults_test_truthiness (VJson falsy_detail))
      as (_ & Hdetails & _).
    pose proof falsy_detail_is_normalised as Hr. split; [exact Hr|].
    destruct (Hdetails _ Hr) as (Hdetail & _ & Hchart). clear Hdetails.
    split; [|split; [|split]].
    + apply (Hdetail "market_cap_rank" [P_market_cap_rank] VNull).
      apply list_elem_of_here.
    + apply (Hdetail "current_price"
               [P_market_data; P_current_price; P_usd] (VNum 0)).
      apply list_elem_of_further, list_elem_of_here.
    + apply (Hdetail "ath_date" [P_market_data; P_ath_date]
               (VStr "N/A")).
      do 11 apply list_elem_of_further. apply list_elem_of_here.
    + apply Hchart. reflexivity.
  - destruct (C10_defaults_test_truthiness (VJson zero_symbol))
      as (_ & _ & _ & Hthrows & _).
    split; [reflexivity|]. apply Hthrows; reflexivity.
  - destruct (C10_defaults_test_truthiness (VJson zero_sparkline))
      as (_ & _ & _ & _ & Hthrows & _).
    split; [reflexivity|]. apply Hthrows; reflexivity.
  - destruct (C10_defaults_test_truthiness (VJson zero_sparkline))
      as (_ & _ & _ & _ & _ & Hreturns).
    destruct (Hreturns eq_refl) as [Hlist _]; [by right|]. exact Hlist.
Defined.

(** C10 as stated fails: a list record whose symbol is the number [0] has a
    symbol that is present and falsy, but the normaliser does not replace
    it by ["N/A"] as it does a missing symbol; it throws, and there is no
    [TokenSummary] at all. *)
Lemma C10_counterexample :
  ¬ (truthy (member (VJson zero_symbol) P_symbol) = false →
     ∃ r : record,
       formatAiAgentToken (VJson zero_symbol) = Normal r ∧
       r !! "symbol" = Some (VStr "N/A")).
Proof.
  intros Hclaim. destruct (Hclaim zero_symbol_is_falsy) as (r & Hr & _).
  assert (formatAiAgentToken (VJson zero_symbol) = Throw TypeError) as Hthrow
    by by apply formatAiAgentToken_throws.
  rewrite Hthrow in Hr. discriminate Hr.
Qed.

End Examples.

(** ** Further facts about the operations *)

Module FurtherFacts.
Import JS TokenService Shapes Behaviour JSFacts NormaliserFacts OperationFacts.

(** *** [map] over an array *)

(** [map] returns when the callback returns on every element, and then
    returns the results in the order of the elements. *)
Lemma mapM_Normal {A B : Type} (f : A → completion B) (l : list A) (rs : list B) :
  mapM f l = Normal rs ↔ Forall2 (λ x r, f x = Normal r) l rs.
Proof.
  revert rs. induction l as [|x l IH]; intros rs; cbn [mapM].
  - split.
    + intros Hr. apply Normal_inj in Hr. subst rs. constructor.
    + intros Hall. by inversion Hall.
  - split.
    + intros Hr. destruct (f x) as [r|e] eqn:Hx; [|discriminate Hr].
      destruct (mapM f l) as [rs'|e] eqn:Hl; [|discriminate Hr].
      cbn in Hr. apply Normal_inj in Hr. subst rs.
      constructor; [done|]. by apply IH.
    + intros Hall. inversion Hall as [|x' r l' rs' Hx Hrest]; subst.
      rewrite Hx. apply IH in Hrest. by rewrite Hrest.
Qed.

(** [map] throws as soon as the callback throws on one element. *)
Lemma mapM_Throw {A B : Type} (f : A → completion B) (l : list A) x e :
  x ∈ l → f x = Throw e → ∃ e', mapM f l = Throw e'.
Proof.
  intros Hin Hx. induction l as [|y l IH]; [by apply elem_of_nil in Hin|].
  cbn [mapM]. destruct (f y) as [r|e0] eqn:Hy; [|by exists e0].
  apply elem_of_cons in Hin as [->|Hin]; [congruence|].
  destruct (IH Hin) as [e' He']. rewrite He'. by exists e'.
Qed.

Lemma nullish_falsy v : nullish v = true → truthy v = false.
Proof. by destruct v as [| |[]|]. Qed.

(** A chain of [?.] that starts from [null] or [undefined] ends there. *)
Lemma foldl_opt_nullish v ps :
  nullish v = true → nullish (foldl opt v ps) = true.
Proof.
  revert v. induction ps as [|p ps IH]; intros v Hv; [done|].
  cbn [foldl]. apply IH. unfold opt. by rewrite Hv.
Qed.

Lemma append_cancel (s a b : string) : s +:+ a = s +:+ b → a = b.
Proof.
  induction s as [|c s IH]; [done|]. cbn. intros Heq.
  injection Heq as Heq. by apply IH.
Qed.

Section WithUpstream.
Context `{Runtime} `{Upstream}.

(** *** The listing *)

(** A run of the listing fetch, by the outcome of the call and of the
    mapping. *)
Lemma fetchAiAgentTokens_run s :
  fetchAiAgentTokens s =
    match axios_get markets_url markets_params (st_world s) with
    | (Normal data, w) =>
        match call_map data formatAiAgentToken with
        | Normal tokens =>
            (Normal tokens, after s w [AxiosGet markets_url markets_params])
        | Throw e =>
            (Normal [],
             after s w [ AxiosGet markets_url markets_params;
                         ConsoleError "Failed to fetch AI agent tokens:" e ])
        end
    | (Throw e, w) =>
        (Normal [],
         after s w [ AxiosGet markets_url markets_params;
                     ConsoleError "Failed to fetch AI agent tokens:" e ])
    end.
Proof.
  unfold fetchAiAgentTokens, try_catch, mbind, M_bind, lift, await_axios_get,
    console_error, emit, mret, M_ret, after.
  destruct (axios_get markets_url markets_params (st_world s))
    as [[data|e] w].
  - destruct (call_map data formatAiAgentToken) as [tokens|e]; [done|].
    cbn. by rewrite <- app_assoc.
  - cbn. by rewrite <- app_assoc.
Qed.

Lemma getAiAgentTokens_fetch s : getAiAgentTokens s = fetchAiAgentTokens s.
Proof.
  unfold getAiAgentTokens, mbind, M_bind, mret, M_ret.
  rewrite fetchAiAgentTokens_run.
  destruct (axios_get markets_url markets_params (st_world s))
    as [[data|e] w]; [|done].
  by destruct (call_map data formatAiAgentToken).
Qed.

(** *** The detail fetch *)

(** A run of the detail fetch, by the outcome of the call and of the
    normalisation. *)
Lemma fetchTokenDetails_run tokenId s :
  fetchTokenDetails tokenId s =
    match axios_get (details_url tokenId) details_params (st_world s) with
    | (Normal data, w) =>
        match formatTokenDetails (VJson data) with
        | Normal token =>
            (Normal (Some token),
             after s w [AxiosGet (details_url tokenId) details_params])
        | Throw e =>
            (Normal None,
             after s w
               [ AxiosGet (details_url tokenId) details_params;
                 ConsoleError
                   ("Error fetching details for " +:+ tokenId +:+ ":") e ])
        end
    | (Throw e, w) =>
        (Normal None,
         after s w
           [ AxiosGet (details_url tokenId) details_params;
             ConsoleError
               ("Error fetching details for " +:+ tokenId +:+ ":") e ])
    end.
Proof.
  unfold fetchTokenDetails, try_catch, mbind, M_bind, lift, await_axios_get,
    console_error, emit, mret, M_ret, after.
  destruct (axios_get (details_url tokenId) details_params (st_world s))
    as [[data|e] w].
  - destruct (formatTokenDetails (VJson data)) as [token|e]; [done|].
    cbn. by rewrite <- app_assoc.
  - cbn. by rewrite <- app_assoc.
Qed.

(** *** The generator *)

(** The prompt starts with the name: it does not render when the name does
    not convert to a string. *)
Lemma user_content_needs_name token e :
  to_string (rget token P_name) = Throw e →
  render token user_content = Throw e.
Proof.
  intros Hname. unfold user_content. cbn [render render_piece mbind].
  rewrite Hname. reflexivity.
Qed.

Lemma failure_message_needs_name token e :
  to_string (rget token P_name) = Throw e →
  render token failure_message = Throw e.
Proof.
  intros Hname. unfold failure_message. cbn [render render_piece mbind].
  rewrite Hname. reflexivity.
Qed.

Lemma failure_message_of_name token name :
  to_string (rget token P_name) = Normal name →
  render token failure_message
    = Normal ("AI analysis failed for " +:+ name +:+ ":").
Proof.
  intros Hname. unfold failure_message. cbn [render render_piece mbind].
  rewrite Hname. reflexivity.
Qed.

(** A run of the generator, by what renders, what the endpoint answers and
    whether the answer has a first message. *)
Lemma getAiAnalysis_run token s :
  getAiAnalysis token s =
    let handler (e : exn) (s' : state) : completion value * state :=
      match render token failure_message with
      | Normal message =>
          (Normal generator_fallback,
           after s' (st_world s') [ConsoleError message e])
      | Throw e' => (Throw e', s')
      end in
    match render token user_content with
    | Normal content =>
        match openai_create (chat_request content) (st_world s) with
        | (Normal response, w) =>
            match first_content response with
            | Normal c =>
                (Normal c, after s w [OpenAICreate (chat_request content)])
            | Throw e =>
                handler e (after s w [OpenAICreate (chat_request content)])
            end
        | (Throw e, w) =>
            handler e (after s w [OpenAICreate (chat_request content)])
        end
    | Throw e => handler e s
    end.
Proof.
  unfold getAiAnalysis, try_catch, mbind, M_bind, lift, await_openai_create,
    console_error, emit, mret, M_ret, after.
  destruct (render token user_content) as [content|e0].
  - destruct (openai_create (chat_request content) (st_world s))
      as [[response|e1] w].
    + destruct (first_content response) as [c|e2]; [done|].
      by destruct (render token failure_message).
    + by destruct (render token failure_message).
  - by destruct (render token failure_message).
Qed.

(** The generator throws exactly when the name of the token does not
    convert to a string, and then throws what that conversion throws. *)
Lemma getAiAnalysis_throws token s e :
  (getAiAnalysis token s).1 = Throw e ↔
  to_string (rget token P_name) = Throw e.
Proof.
  rewrite getAiAnalysis_run. cbv zeta.
  destruct (to_string (rget token P_name)) as [name|e0] eqn:Hname.
  - rewrite (failure_message_of_name _ _ Hname).
    split; [|discriminate].
    destruct (render token user_content) as [content|e1].
    + destruct (openai_create (chat_request content) (st_world s))
        as [[response|e2] w]; [|discriminate].
      destruct (first_content response); discriminate.
    + discriminate.
  - rewrite (user_content_needs_name _ _ Hname).
    rewrite (failure_message_needs_name _ _ Hname). cbn.
    split; congruence.
Qed.

(** What a run of the generator adds to the log: at most one call to the
    completion endpoint, and no call to the market-data provider. *)
Lemma getAiAnalysis_log token s :
  ∃ rest,
    st_log (getAiAnalysis token s).2 = st_log s ++ rest ∧
    (∀ url params, AxiosGet url params ∉ rest) ∧
    (length (openai_calls rest) ≤ 1)%nat.
Proof.
  rewrite getAiAnalysis_run. cbv zeta. unfold after.
  assert (∀ evs : list event,
            evs = [] ∨ (∃ m e, evs = [ConsoleError m e])
            ∨ (∃ r, evs = [OpenAICreate r])
            ∨ (∃ r m e, evs = [OpenAICreate r; ConsoleError m e]) →
            (∀ url params, AxiosGet url params ∉ evs) ∧
            (length (openai_calls evs) ≤ 1)%nat) as Hshape.
  { intros evs [->|[(m & e & ->)|[(r & ->)|(r & m & e & ->)]]];
      (split; [|cbn; lia]); intros url params Hin.
    - by apply elem_of_nil in Hin.
    - apply list_elem_of_singleton in Hin. discriminate Hin.
    - apply list_elem_of_singleton in Hin. discriminate Hin.
    - apply elem_of_cons in Hin as [Hin|Hin]; [discriminate Hin|].
      apply list_elem_of_singleton in Hin. discriminate Hin. }
  destruct (render token user_content) as [content|e0].
  - destruct (openai_create (chat_request content) (st_world s))
      as [[response|e1] w].
    + destruct (first_content response) as [c|e2].
      * eexists. split; [done|]. apply Hshape. right. right. left.
        by eexists.
      * destruct (render token failure_message) as [m|e3]; cbn.
        -- eexists. split; [by rewrite <- app_assoc|]. apply Hshape.
           right. right. right. by eexists _, _, _.
        -- eexists. split; [done|]. apply Hshape. right. right. left.
           by eexists.
    + destruct (render token failure_message) as [m|e3]; cbn.
      * eexists. split; [by rewrite <- app_assoc|]. apply Hshape.
        right. right. right. by eexists _, _, _.
      * eexists. split; [done|]. apply Hshape. right. right. left.
        by eexists.
  - destruct (render token failure_message) as [m|e3]; cbn.
    + eexists. split; [done|]. apply Hshape. right. left. by eexists _, _.
    + exists []. split; [by rewrite app_nil_r|]. apply Hshape. by left.
Qed.

(** A primitive value converts to a string. *)
Lemma primitive_to_string v :
  primitive v = true → ∃ text, to_string v = Normal text.
Proof.
  destruct v as [| |[| [] | | | |]|]; try discriminate; intros _;
    by eexists.
Qed.

(** The name of a normalised detail is the upstream name. *)
Lemma detail_name token (r : record) :
  formatTokenDetails token = Normal r → rget r P_name = member token P_name.
Proof.
  intros Hr.
  apply formatTokenDetails_inv in Hr as (_ & symbol & chart & _ & _ & ->).
  unfold rget. cbn [prop_name].
  assert ((list_to_map (detail_fields token symbol chart) : record) !! "name"
            = Some (member token P_name)) as ->; [|done].
  apply detail_lookup. apply list_elem_of_further, list_elem_of_here.
Qed.

End WithUpstream.

End FurtherFacts.

(** ** Further properties of the operations *)

Module Further.
Import JS TokenService Shapes Behaviour.
Import JSFacts NormaliserFacts OperationFacts FurtherFacts.

Section WithUpstream.
Context `{Runtime} `{Upstream}.

(** X1.  When the listing endpoint answers with an array and the normaliser
    returns on each of its elements, the token-list operation returns the
    normalised elements, as many as upstream and in the upstream order, and
    logs nothing but the call. *)
Theorem X1_listing_keeps_length_and_order
    (s : state) (elems : list json) (w : world) :
  axios_get markets_url markets_params (st_world s)
    = (Normal (JArr elems), w) →
  (∀ e, e ∈ elems → ∃ r, formatAiAgentToken (VJson e) = Normal r) →
  ∃ tokens : list record,
    getAiAgentTokens s
      = (Normal tokens, after s w [AxiosGet markets_url markets_params]) ∧
    length tokens = length elems ∧
    Forall2 (λ e r, formatAiAgentToken (VJson e) = Normal r) elems tokens.
Proof.
  intros Ha Hall.
  assert (∃ tokens, call_map (JArr elems) formatAiAgentToken = Normal tokens)
    as [tokens Hm].
  { unfold call_map. clear Ha.
    induction elems as [|e elems IH]; [by exists []|].
    destruct (Hall e) as [r Hr]; [apply list_elem_of_here|].
    destruct IH as [rs Hrs].
    { intros e1 He1. apply Hall. by apply list_elem_of_further. }
    exists (r :: rs). cbn [mapM]. by rewrite Hr, Hrs. }
  exists tokens.
  rewrite getAiAgentTokens_fetch, fetchAiAgentTokens_run, Ha, Hm.
  split; [done|].
  unfold call_map in Hm. apply mapM_Normal in Hm.
  split; [symmetry; by eapply Forall2_length|done].
Qed.

(** X2.  One element on which the normaliser throws (a [null] element, or a
    record whose symbol is a number) empties the whole list: the operation
    returns the empty sequence and logs the error. *)
Theorem X2_one_bad_record_empties_the_list
    (s : state) (elems : list json) (w : world) (bad : json) (e : exn) :
  axios_get markets_url markets_params (st_world s)
    = (Normal (JArr elems), w) →
  bad ∈ elems →
  formatAiAgentToken (VJson bad) = Throw e →
  ∃ e',
    getAiAgentTokens s
      = (Normal [],
         after s w [ AxiosGet markets_url markets_params;
                     ConsoleError "Failed to fetch AI agent tokens:" e' ]).
Proof.
  intros Ha Hin Hbad.
  destruct (mapM_Throw (λ x, formatAiAgentToken (VJson x)) elems bad e
              Hin Hbad) as [e' Hm].
  exists e'.
  rewrite getAiAgentTokens_fetch, fetchAiAgentTokens_run, Ha.
  unfold call_map. by rewrite Hm.
Qed.

(** X3.  Every run of the token-list operation makes exactly one call, to
    the listing endpoint with the fixed parameters, and never calls the
    completion endpoint: the world is left as that one call left it, and
    the log grows by the call, followed by one error line at most. *)
Theorem X3_listing_makes_one_call (s : state) :
  st_world (getAiAgentTokens s).2
    = (axios_get markets_url markets_params (st_world s)).2 ∧
  ∃ rest,
    st_log (getAiAgentTokens s).2
      = st_log s ++ AxiosGet markets_url markets_params :: rest ∧
    (rest = [] ∨
     ∃ e, rest = [ConsoleError "Failed to fetch AI agent tokens:" e]).
Proof.
  rewrite getAiAgentTokens_fetch, fetchAiAgentTokens_run. unfold after.
  destruct (axios_get markets_url markets_params (st_world s))
    as [[data|e] w]; cbn.
  - destruct (call_map data formatAiAgentToken) as [tokens|e]; cbn.
    + split; [done|]. exists []. split; [done|]. by left.
    + split; [done|]. eexists. split; [done|]. right. by eexists.
  - split; [done|]. eexists. split; [done|]. right. by eexists.
Qed.

(** X4.  When the detail endpoint answers but the answer cannot be
    normalised (the body is [null], or its symbol is no string), the detail
    operation returns [null] as it does for a failed call: it logs the
    error and holds no event of the generator. *)
Theorem X4_unnormalisable_answer_returns_null
    (tokenId : string) (s : state) (data : json) (w : world) (e : exn) :
  axios_get (details_url tokenId) details_params (st_world s)
    = (Normal data, w) →
  formatTokenDetails (VJson data) = Throw e →
  getTokenDetails tokenId s
    = (Normal None,
       after s w
         [ AxiosGet (details_url tokenId) details_params;
           ConsoleError ("Error fetching details for " +:+ tokenId +:+ ":")
             e ]) ∧
  (∀ token ev,
     ev ∈ [ AxiosGet (details_url tokenId) details_params;
            ConsoleError ("Error fetching details for " +:+ tokenId +:+ ":")
              e ] →
     ¬ generator_event token ev).
Proof.
  intros Ha Hf. split.
  - by rewrite getTokenDetails_run, fetchTokenDetails_run, Ha, Hf.
  - intros token ev Hin [(request & ->)|(message & e' & -> & Hm)].
    + apply elem_of_cons in Hin as [Hin|Hin]; [discriminate Hin|].
      apply list_elem_of_singleton in Hin. discriminate Hin.
    + apply failure_message_text in Hm as (name & ->).
      apply elem_of_cons in Hin as [Hin|Hin]; [discriminate Hin|].
      apply list_elem_of_singleton in Hin. discriminate Hin.
Qed.

(** X5.  The detail operation throws to its caller exactly when the fetch
    has succeeded and the name of the normalised token does not convert to
    a string (an object with a member [toString], or an array that holds
    one): the conversion then throws in the [try] block and again in the
    [catch] block of the generator. *)
Theorem X5_detail_throws_exactly_on_unprintable_name
    (tokenId : string) (s : state) (e : exn) :
  (getTokenDetails tokenId s).1 = Throw e ↔
  ∃ token s1,
    fetchTokenDetails tokenId s = (Normal (Some token), s1) ∧
    to_string (rget token P_name) = Throw e.
Proof.
  rewrite getTokenDetails_run.
  destruct (fetchTokenDetails tokenId s) as [[[token|]|e0] s1] eqn:Hf.
  - pose proof (getAiAnalysis_throws token s1 e) as Hthrows.
    destruct (getAiAnalysis token s1) as [[ai|e1] s2]; cbn in *.
    + split; [discriminate|].
      intros (token' & s1' & Heq & Hname).
      apply pair_equal_spec in Heq as [Heq _].
      apply Normal_inj in Heq. injection Heq as <-.
      apply Hthrows in Hname. discriminate Hname.
    + split.
      * intros Heq. injection Heq as ->. exists token, s1.
        split; [done|]. exact (proj1 Hthrows eq_refl).
      * intros (token' & s1' & Heq & Hname).
        apply pair_equal_spec in Heq as [Heq _].
        apply Normal_inj in Heq. injection Heq as <-.
        pose proof (proj2 Hthrows Hname) as He. by injection He as ->.
  - cbn. split; [discriminate|]. intros (token' & s1' & Heq & _).
    apply pair_equal_spec in Heq as [Heq _]. apply Normal_inj in Heq.
    discriminate Heq.
  - exfalso. rewrite fetchTokenDetails_run in Hf.
    destruct (axios_get (details_url tokenId) details_params (st_world s))
      as [[data|e1] w]; [|discriminate Hf].
    destruct (formatTokenDetails (VJson data)); discriminate Hf.
Qed.

(** X6.  The detail operation returns normally whenever the name in the
    answer of the detail endpoint, if it answers, is neither an array nor an
    object. *)
Theorem X6_detail_returns_on_primitive_name (tokenId : string) (s : state) :
  (∀ data w,
     axios_get (details_url tokenId) details_params (st_world s)
       = (Normal data, w) →
     primitive (member (VJson data) P_name) = true) →
  ∃ result s', getTokenDetails tokenId s = (Normal result, s').
Proof.
  intros Hname. rewrite getTokenDetails_run, fetchTokenDetails_run.
  destruct (axios_get (details_url tokenId) details_params (st_world s))
    as [[data|e] w] eqn:Ha; [|by eexists _, _].
  destruct (formatTokenDetails (VJson data)) as [token|e] eqn:Hf;
    [|by eexists _, _].
  destruct (primitive_to_string _ (Hname data w eq_refl)) as [name Hprint].
  rewrite <- (detail_name (VJson data) token Hf) in Hprint.
  destruct (getAiAnalysis_returns token
              (after s w [AxiosGet (details_url tokenId) details_params])
              _ (failure_message_of_name _ _ Hprint)) as (v & s2 & Hg).
  rewrite Hg. by eexists _, _.
Qed.

(** X7.  When the prompt cannot be built (a field that it interpolates does
    not convert to a string) but the name converts, the generator returns
    its fallback text without calling the completion endpoint: it only logs
    the error. *)
Theorem X7_unbuildable_prompt_skips_the_call
    (token : record) (s : state) (e : exn) (message : string) :
  render token user_content = Throw e →
  render token failure_message = Normal message →
  getAiAnalysis token s
    = (Normal generator_fallback,
       after s (st_world s) [ConsoleError message e]).
Proof.
  intros Hr Hm. rewrite getAiAnalysis_run. cbv zeta. by rewrite Hr, Hm.
Qed.

(** X8.  The [ai_insight] of every record that the detail operation returns
    is truthy: it is never [undefined], [null] or the empty string. *)
Theorem X8_insight_is_never_empty
    (tokenId : string) (s s' : state) (r : record) :
  getTokenDetails tokenId s = (Normal (Some r), s') →
  ∃ v, r !! "ai_insight" = Some v ∧ truthy v = true.
Proof.
  rewrite getTokenDetails_run.
  destruct (fetchTokenDetails tokenId s) as [[[token|]|e0] s1];
    [|discriminate|discriminate].
  destruct (getAiAnalysis token s1) as [[ai|e1] s2]; [|discriminate].
  intros Heq. apply pair_equal_spec in Heq as [Heq _].
  apply Normal_inj in Heq. injection Heq as <-.
  exists (js_or ai (VStr "No AI insight available.")).
  split; [apply lookup_insert_eq|].
  unfold js_or. by destruct (truthy ai) eqn:Hai.
Qed.

(** X9.  Every run of the detail operation, whatever its outcome, starts
    with one call to the detail endpoint, makes no other call to the
    market-data provider, and calls the completion endpoint once at most:
    nothing is retried. *)
Theorem X9_detail_makes_one_call_to_each_provider
    (tokenId : string) (s : state) :
  ∃ rest,
    st_log (getTokenDetails tokenId s).2
      = st_log s ++ AxiosGet (details_url tokenId) details_params :: rest ∧
    (∀ url params, AxiosGet url params ∉ rest) ∧
    (length (openai_calls rest) ≤ 1)%nat.
Proof.
  rewrite getTokenDetails_run, fetchTokenDetails_run.
  assert (∀ e : exn, ∀ m : string,
            (∀ url params, AxiosGet url params ∉ [ConsoleError m e]) ∧
            (length (openai_calls [ConsoleError m e]) ≤ 1)%nat) as Hline.
  { intros e m. split; [|cbn; lia]. intros url params Hin.
    apply list_elem_of_singleton in Hin. discriminate Hin. }
  destruct (axios_get (details_url tokenId) details_params (st_world s))
    as [[data|e] w].
  - destruct (formatTokenDetails (VJson data)) as [token|e].
    + destruct (getAiAnalysis_log token
                  (after s w [AxiosGet (details_url tokenId) details_params]))
        as (rest & Hlog & Hrest).
      exists rest. split; [|exact Hrest].
      destruct (getAiAnalysis token
                  (after s w [AxiosGet (details_url tokenId) details_params]))
        as [[ai|e1] s2]; cbn in *; by rewrite Hlog, <- app_assoc.
    + eexists. split; [done|]. apply Hline.
  - eexists. split; [done|]. apply Hline.
Qed.

End WithUpstream.

End Further.

(** ** Further properties of the normalisers and of the requests *)

Module FurtherNormalisation.
Import JS TokenService Shapes Behaviour.
Import JSFacts NormaliserFacts OperationFacts FurtherFacts.

(** Two parsed objects that agree under a key read the same there. *)
Lemma member_agree members1 members2 p :
  assoc (prop_name p) members1 = assoc (prop_name p) members2 →
  member (VJson (JObj members1)) p = member (VJson (JObj members2)) p.
Proof. cbn. by intros ->. Qed.

Section WithRuntime.
Context `{Runtime}.

(** X10.  Each normaliser depends on the upstream record only through the
    keys it reads: two records that agree under the twenty keys of a
    [TokenSummary] have the same list normalisation, and two records that
    agree under [id], [name], [symbol], [image], [market_cap_rank],
    [market_data] and [last_updated] have the same detail normalisation.
    Any other member of the upstream record is ignored. *)
Theorem X10_normalisers_ignore_other_members
    (members1 members2 : list (string * json)) :
  ((∀ k, k ∈ summary_keys → assoc k members1 = assoc k members2) →
   formatAiAgentToken (VJson (JObj members1))
     = formatAiAgentToken (VJson (JObj members2))) ∧
  ((∀ k, k ∈ detail_top_keys → assoc k members1 = assoc k members2) →
   formatTokenDetails (VJson (JObj members1))
     = formatTokenDetails (VJson (JObj members2))).
Proof.
  split; intros Hagree.
  - assert (∀ p, prop_name p ∈ summary_keys →
              member (VJson (JObj members1)) p
                = member (VJson (JObj members2)) p) as Hm.
    { intros p Hp. apply member_agree. by apply Hagree. }
    unfold formatAiAgentToken.
    rewrite !(get_member (VJson (JObj members1))) by done.
    rewrite !(get_member (VJson (JObj members2))) by done.
    repeat match goal with
           | |- context [member (VJson (JObj members1)) ?p] =>
               rewrite (Hm p) by (apply (bool_decide_unpack _); by vm_compute)
           end.
    reflexivity.
  - assert (∀ p, prop_name p ∈ detail_top_keys →
              member (VJson (JObj members1)) p
                = member (VJson (JObj members2)) p) as Hm.
    { intros p Hp. apply member_agree. by apply Hagree. }
    unfold formatTokenDetails, image_literal.
    rewrite !(get_member (VJson (JObj members1))) by done.
    rewrite !(get_member (VJson (JObj members2))) by done.
    repeat match goal with
           | |- context [member (VJson (JObj members1)) ?p] =>
               rewrite (Hm p) by (apply (bool_decide_unpack _); by vm_compute)
           end.
    reflexivity.
Qed.

(** X11.  A body without any of the properties that the normalisers read
    (a string such as a page of text, a number, a boolean, an array, the
    empty object) is normalised like the empty object, not rejected: both
    normalisers return the record of all defaults, in which [id] and [name]
    are [undefined]. *)
Theorem X11_propertyless_body_gives_all_defaults (body : json) :
  propertyless body = true →
  formatAiAgentToken (VJson body) = Normal default_summary ∧
  formatTokenDetails (VJson body) = Normal default_detail ∧
  default_detail !! "id" = Some VUndef ∧
  default_detail !! "name" = Some VUndef ∧
  default_detail !! "symbol" = Some (VStr "N/A") ∧
  default_detail !! "current_price" = Some (VNum 0) ∧
  default_detail !! "chart_data" = Some (VArr []).
Proof.
  intros Hbody.
  assert (formatAiAgentToken (VJson body) = Normal default_summary ∧
          formatTokenDetails (VJson body) = Normal default_detail) as [Hs Hd].
  { destruct body as [| | | | |[|m members]]; try discriminate Hbody.
    all: split;
      [ by rewrite (formatAiAgentToken_returns _ VUndef)
      | by rewrite (formatTokenDetails_returns _ VUndef VUndef) ]. }
  split; [exact Hs|]. split; [exact Hd|]. by repeat split.
Qed.

(** X12.  When the upstream record has no [market_data] (or a [null] one),
    every field of the [TokenDetail] that is read under [market_data] takes
    its default, and [chart_data] is the empty sequence. *)
Theorem X12_without_market_data_all_market_fields_default
    (token : value) (r : record) :
  formatTokenDetails token = Normal r →
  nullish (member token P_market_data) = true →
  (∀ k ps d, (k, P_market_data :: ps, d) ∈ detail_defaults →
             r !! k = Some d) ∧
  r !! "chart_data" = Some (VArr []).
Proof.
  intros Hr Hmd.
  apply formatTokenDetails_inv in Hr as (_ & symbol & chart & _ & Hc & ->).
  split.
  - intros k ps d Hin.
    rewrite <- (js_or_falsy (path token (P_market_data :: ps)) d).
    + by apply detail_lookup, detail_default_field.
    + apply nullish_falsy. cbn [path]. by apply foldl_opt_nullish.
  - assert (nullish (sparkline token) = true) as Hsp.
    { unfold sparkline. cbn [path]. by apply foldl_opt_nullish. }
    unfold sliced_sparkline in Hc.
    apply then_opt_slice_Normal in Hc
      as [[_ ->]|[(l & Hl & _)|(s & Hs & _)]].
    + apply detail_lookup. unfold detail_fields.
      do 4 apply list_elem_of_further. apply elem_of_app. right.
      apply list_elem_of_here.
    + rewrite Hl in Hsp. discriminate Hsp.
    + rewrite Hs in Hsp. discriminate Hsp.
Qed.

(** X13.  When the upstream [image] is a string (a URL, as the listing
    endpoint gives it) the [image] of the [TokenDetail] has the empty string
    for [thumb] and [large], but for [small] the built-in method
    [String.prototype.small], which [token.image?.small] finds on every
    string; it is truthy, so the default does not replace it. *)
Theorem X13_image_string_yields_builtin_small
    (token : value) (r : record) (url : string) :
  formatTokenDetails token = Normal r →
  member token P_image = VStr url →
  r !! "image" = Some (VImage (VStr "") (VFun StringSmall) (VStr "")).
Proof.
  intros Hr Himage.
  apply formatTokenDetails_inv in Hr as (_ & symbol & chart & _ & _ & ->).
  assert (VImage (VStr "") (VFun StringSmall) (VStr "")
            = VImage (js_or (path token [P_image; P_thumb]) (VStr ""))
                (js_or (path token [P_image; P_small]) (VStr ""))
                (js_or (path token [P_image; P_large]) (VStr ""))) as ->.
  { cbn [path foldl]. by rewrite Himage. }
  apply detail_lookup. do 3 apply list_elem_of_further.
  apply list_elem_of_here.
Qed.

End WithRuntime.

Section WithUpstream.
Context `{Upstream}.

(** X14.  The identifier is spliced into the URL of the detail request as
    it is: distinct identifiers give distinct URLs, and the identifier
    [markets] gives the URL of the listing endpoint. *)
Theorem X14_identifier_is_spliced_into_the_url (id1 id2 : string) :
  (details_url id1 = details_url id2 ↔ id1 = id2) ∧
  (details_url id1 = markets_url ↔ id1 = "markets").
Proof.
  unfold details_url, markets_url. split; split.
  - intros Heq. apply append_cancel in Heq. by apply (append_cancel "/coins/").
  - by intros ->.
  - intros Heq. apply append_cancel in Heq.
    by apply (append_cancel "/coins/").
  - by intros ->.
Qed.

End WithUpstream.

End FurtherNormalisation.

(** ** The further statements at concrete inputs *)

Module FurtherExamples.
Import JS TokenService Shapes Stub Behaviour Doubles.
Import JSFacts NormaliserFacts OperationFacts FurtherFacts.
Import Examples Further FurtherNormalisation.

(** X1 at a listing of two records. *)
Lemma X1_witness :
  axios_get markets_url markets_params
      (st_world (start (listing_of [partial_summary; anonymous])))
    = (Normal (JArr [partial_summary; anonymous]),
       listing_of [partial_summary; anonymous]) ∧
  (∀ e, e ∈ [partial_summary; anonymous] →
        ∃ r, formatAiAgentToken (VJson e) = Normal r) ∧
  ∃ tokens : list record,
    getAiAgentTokens (start (listing_of [partial_summary; anonymous]))
      = (Normal tokens,
         after (start (listing_of [partial_summary; anonymous]))
           (listing_of [partial_summary; anonymous])
           [AxiosGet markets_url markets_params]) ∧
    length tokens = 2%nat ∧
    Forall2 (λ e r, formatAiAgentToken (VJson e) = Normal r)
      [partial_summary; anonymous] tokens.
Proof.
  assert (∀ e, e ∈ [partial_summary; anonymous] →
               ∃ r, formatAiAgentToken (VJson e) = Normal r) as Hall.
  { intros e He. apply elem_of_cons in He as [->|He].
    - eexists. apply partial_summary_normalised.
    - apply list_elem_of_singleton in He as ->.
      eexists. apply anonymous_summary_normalised. }
  split; [reflexivity|]. split; [exact Hall|].
  apply (X1_listing_keeps_length_and_order
           (start (listing_of [partial_summary; anonymous]))
           [partial_summary; anonymous]
           (listing_of [partial_summary; anonymous]) eq_refl Hall).
Defined.

(** X2 at a listing whose second element is [null]. *)
Lemma X2_witness :
  axios_get markets_url markets_params
      (st_world (start listing_null_element))
    = (Normal (JArr [partial_summary; JNull]), listing_null_element) ∧
  JNull ∈ [partial_summary; JNull] ∧
  formatAiAgentToken (VJson JNull) = Throw TypeError ∧
  ∃ e',
    getAiAgentTokens (start listing_null_element)
      = (Normal [],
         after (start listing_null_element) listing_null_element
           [ AxiosGet markets_url markets_params;
             ConsoleError "Failed to fetch AI agent tokens:" e' ]).
Proof.
  assert (JNull ∈ [partial_summary; JNull]) as Hin
    by apply list_elem_of_further, list_elem_of_here.
  split; [reflexivity|]. split; [exact Hin|]. split; [reflexivity|].
  apply (X2_one_bad_record_empties_the_list
           (start listing_null_element) [partial_summary; JNull]
           listing_null_element JNull TypeError eq_refl Hin eq_refl).
Defined.

(** X4 at a detail endpoint that answers with a record whose symbol is a
    number. *)
Lemma X4_witness :
  axios_get (details_url "five") details_params
      (st_world (start (answering numeric_symbol)))
    = (Normal numeric_symbol, answering numeric_symbol) ∧
  formatTokenDetails (VJson numeric_symbol) = Throw TypeError ∧
  getTokenDetails "five" (start (answering numeric_symbol))
    = (Normal None,
       after (start (answering numeric_symbol)) (answering numeric_symbol)
         [ AxiosGet (details_url "five") details_params;
           ConsoleError "Error fetching details for five:" TypeError ]).
Proof.
  split; [reflexivity|]. split; [reflexivity|].
  destruct (X4_unnormalisable_answer_returns_null
              "five" (start (answering numeric_symbol)) numeric_symbol
              (answering numeric_symbol) TypeError eq_refl eq_refl)
    as [Hrun _].
  exact Hrun.
Defined.

Lemma unnamed_is_normalised :
  formatTokenDetails (VJson unnamed_detail) = Normal unnamed_normalised.
Proof. by apply formatTokenDetails_returns. Qed.

Lemma unpriced_is_normalised :
  formatTokenDetails (VJson unpriced_detail) = Normal unpriced_normalised.
Proof. by apply formatTokenDetails_returns. Qed.

(** X5 at a detail endpoint that answers with a record whose name is an
    object with a member [toString]: the detail operation throws. *)
Lemma X5_witness :
  (getTokenDetails "nameless" (start (answering unnamed_detail))).1
    = Throw TypeError.
Proof.
  apply (X5_detail_throws_exactly_on_unprintable_name
           "nameless" (start (answering unnamed_detail)) TypeError).
  eexists unnamed_normalised, _. split.
  - apply (fetchTokenDetails_returns "nameless"
             (start (answering unnamed_detail)) unnamed_detail
             (answering unnamed_detail)).
    + reflexivity.
    + apply unnamed_is_normalised.
  - reflexivity.
Defined.

(** X6 at a detail endpoint that answers with [bitcoin], which has no
    name. *)
Lemma X6_witness :
  (∀ data w,
     axios_get (details_url "bitcoin") details_params
         (st_world (start all_up))
       = (Normal data, w) →
     primitive (member (VJson data) P_name) = true) ∧
  ∃ result s', getTokenDetails "bitcoin" (start all_up) = (Normal result, s').
Proof.
  assert (∀ data w,
            axios_get (details_url "bitcoin") details_params
                (st_world (start all_up))
              = (Normal data, w) →
            primitive (member (VJson data) P_name) = true) as Hname.
  { intros data w Heq. cbn in Heq.
    apply pair_equal_spec in Heq as [Heq _]. apply Normal_inj in Heq.
    by subst data. }
  split; [exact Hname|].
  apply (X6_detail_returns_on_primitive_name "bitcoin" (start all_up) Hname).
Defined.

(** X7 at a token whose price is an object with a member [toString]. *)
Lemma X7_witness :
  render unpriced_normalised user_content = Throw TypeError ∧
  render unpriced_normalised failure_message
    = Normal "AI analysis failed for Bitcoin:" ∧
  getAiAnalysis unpriced_normalised (start (answering unpriced_detail))
    = (Normal generator_fallback,
       after (start (answering unpriced_detail)) (answering unpriced_detail)
         [ConsoleError "AI analysis failed for Bitcoin:" TypeError]).
Proof.
  assert (render unpriced_normalised user_content = Throw TypeError) as Hr
    by (by vm_compute).
  assert (render unpriced_normalised failure_message
            = Normal "AI analysis failed for Bitcoin:") as Hm
    by (by vm_compute).
  split; [exact Hr|]. split; [exact Hm|].
  apply (X7_unbuildable_prompt_skips_the_call unpriced_normalised
           (start (answering unpriced_detail)) TypeError _ Hr Hm).
Defined.

(** X8 at stubbed providers that both answer. *)
Lemma X8_witness :
  getTokenDetails "bitcoin" (start all_up)
    = (Normal (Some (<["ai_insight" := VStr "Hold."]> bitcoin_detail)),
       generated all_up) ∧
  ∃ v, (<["ai_insight" := VStr "Hold."]> bitcoin_detail) !! "ai_insight"
         = Some v ∧
       truthy v = true.
Proof.
  pose proof (bitcoin_run all_up "Hold." eq_refl eq_refl) as Hg.
  split; [exact Hg|].
  apply (X8_insight_is_never_empty "bitcoin" (start all_up)
           (generated all_up) _ Hg).
Defined.

(** X10 at [bitcoin] and at the same record with a member [links] more. *)
Lemma X10_witness :
  (∀ k, k ∈ detail_top_keys →
        assoc k [ ("links",
                    JObj [ ("homepage", JStr "https://bitcoin.org") ]);
                  ("id", JStr "bitcoin");
                  ("symbol", JStr "btc");
                  ("market_data",
                    JObj [ ("current_price", JObj [ ("usd", JNum 42000) ]) ]) ]
          = assoc k [ ("id", JStr "bitcoin");
                      ("symbol", JStr "btc");
                      ("market_data",
                        JObj [ ("current_price",
                                 JObj [ ("usd", JNum 42000) ]) ]) ]) ∧
  formatTokenDetails (VJson bitcoin_with_links)
    = formatTokenDetails (VJson bitcoin).
Proof.
  assert (∀ k, k ∈ detail_top_keys →
            assoc k [ ("links",
                        JObj [ ("homepage", JStr "https://bitcoin.org") ]);
                      ("id", JStr "bitcoin");
                      ("symbol", JStr "btc");
                      ("market_data",
                        JObj [ ("current_price",
                                 JObj [ ("usd", JNum 42000) ]) ]) ]
              = assoc k [ ("id", JStr "bitcoin");
                          ("symbol", JStr "btc");
                          ("market_data",
                            JObj [ ("current_price",
                                     JObj [ ("usd", JNum 42000) ]) ]) ])
    as Hagree.
  { intros k Hk. unfold detail_top_keys in Hk.
    repeat (apply elem_of_cons in Hk as [->|Hk]; [reflexivity|]).
    by apply elem_of_nil in Hk. }
  split; [exact Hagree|].
  destruct (X10_normalisers_ignore_other_members
              [ ("links", JObj [ ("homepage", JStr "https://bitcoin.org") ]);
                ("id", JStr "bitcoin");
                ("symbol", JStr "btc");
                ("market_data",
                  JObj [ ("current_price", JObj [ ("usd", JNum 42000) ]) ]) ]
              [ ("id", JStr "bitcoin");
                ("symbol", JStr "btc");
                ("market_data",
                  JObj [ ("current_price", JObj [ ("usd", JNum 42000) ]) ]) ])
    as [_ Hdetail].
  exact (Hdetail Hagree).
Defined.

(** X11 at a body that is a page of text. *)
Lemma X11_witness :
  propertyless html_page = true ∧
  formatAiAgentToken (VJson html_page) = Normal default_summary ∧
  formatTokenDetails (VJson html_page) = Normal default_detail ∧
  default_detail !! "id" = Some VUndef ∧
  default_detail !! "name" = Some VUndef ∧
  default_detail !! "symbol" = Some (VStr "N/A") ∧
  default_detail !! "current_price" = Some (VNum 0) ∧
  default_detail !! "chart_data" = Some (VArr []).
Proof.
  split; [reflexivity|].
  apply (X11_propertyless_body_gives_all_defaults html_page). reflexivity.
Defined.

(** X12 at a list record, which has its fields beside and not under
    [market_data], given to the detail normaliser. *)
Lemma X12_witness :
  formatTokenDetails (VJson partial_summary) = Normal flat_normalised ∧
  nullish (member (VJson partial_summary) P_market_data) = true ∧
  flat_normalised !! "current_price" = Some (VNum 0) ∧
  flat_normalised !! "max_supply" = Some VNull ∧
  flat_normalised !! "ath_date" = Some (VStr "N/A") ∧
  flat_normalised !! "chart_data" = Some (VArr []).
Proof.
  assert (formatTokenDetails (VJson partial_summary) = Normal flat_normalised)
    as Hr by by apply formatTokenDetails_returns.
  split; [exact Hr|]. split; [reflexivity|].
  destruct (X12_without_market_data_all_market_fields_default
              (VJson partial_summary) flat_normalised Hr eq_refl)
    as [Hfields Hchart].
  split; [|split; [|split]].
  - apply (Hfields "current_price" [P_current_price; P_usd] (VNum 0)).
    apply list_elem_of_further, list_elem_of_here.
  - apply (Hfields "max_supply" [P_max_supply] VNull).
    do 8 apply list_elem_of_further. apply list_elem_of_here.
  - apply (Hfields "ath_date" [P_ath_date] (VStr "N/A")).
    do 11 apply list_elem_of_further. apply list_elem_of_here.
  - exact Hchart.
Defined.

(** X13 at a detail record whose image is a URL. *)
Lemma X13_witness :
  formatTokenDetails (VJson image_url_detail) = Normal image_url_normalised ∧
  member (VJson image_url_detail) P_image
    = VStr "https://assets.example/btc.png" ∧
  image_url_normalised !! "image"
    = Some (VImage (VStr "") (VFun StringSmall) (VStr "")).
Proof.
  assert (formatTokenDetails (VJson image_url_detail)
            = Normal image_url_normalised) as Hr
    by by apply formatTokenDetails_returns.
  split; [exact Hr|]. split; [reflexivity|].
  apply (X13_image_string_yields_builtin_small (VJson image_url_detail)
           image_url_normalised "https://assets.example/btc.png" Hr eq_refl).
Defined.

End FurtherExamples.
